(** * Order management backend: the order controller and its two models

    A shallow embedding of [src/Backend/src/controllers/orderController.js]
    together with the Mongoose schemas [models/Order.js] and the product
    schema, followed by the properties of order placement, status updates and
    order look-up.

    Conventions of the embedding:
    - an [ObjectId] is its string form; a collection is a finite map from
      [_id] to document, so the key under which a document is stored is the
      document's [_id];
    - [price] and [totalAmount] are JavaScript Numbers, that is binary64
      floating-point values ([Number]), with the arithmetic and comparisons
      of binary64; [stock] and [quantity] are whole numbers ([Z], negative
      values included), which JavaScript represents and subtracts exactly
      up to 2^53: fractional quantities, and stocks and quantities beyond
      2^53, are outside the model;
    - the ids of a request are well-formed ObjectIds: a look-up of an id that
      cannot be cast to an ObjectId is outside the model;
    - a handler is a computation in a state-and-exception monad over the
      server state: the committed database, the working copy of the open
      multi-document transaction, the socket events emitted so far and a log
      of the database operations issued;
    - [populate] only decorates a response with referenced documents and is
      not modelled; the [User] collection is not part of the sources, so an
      order's [userId] is taken to refer to an existing user. *)

From Corelib Require Import PrimFloat.
From Corelib Require FloatOps SpecFloat FloatAxioms.
From stdpp Require Import gmap strings list fin_maps numbers.
From Stdlib Require Import ZArith QArith.

Open Scope Z_scope.

(** ** Numbers *)

(** A JavaScript Number: a binary64 floating-point value. *)
Definition Number : Set := float.

(** The Number a whole number denotes: the nearest binary64 value (the
    whole number itself up to 2^53 in magnitude). *)
Definition Z2Number (z : Z) : Number :=
  FloatOps.SF2Prim (SpecFloat.binary_normalize FloatOps.prec FloatOps.emax z 0 false).

(** [min <= x], as the [min] validators of the schemas test it; false for
    [NaN]. *)
Definition atLeast (min x : Number) : bool := PrimFloat.leb min x.
Definition lessThan (x y : Number) : bool := PrimFloat.ltb x y.

(** [Number.MAX_SAFE_INTEGER], 2^53 - 1. *)
Definition maxSafeInteger : Z := 9007199254740991.

(** ** Documents *)

Definition ObjectId := string.

(** [productSchema]; only the fields the order controller reads or writes. *)
Module Product.
Record t := mk {
  name : string;
  price : Number;
  stock : Z;
  sellerId : ObjectId;
  isActive : bool
}.

(** [product.stock -= quantity] *)
Definition decreaseStock (p : t) (quantity : Z) : t :=
  mk (name p) (price p) (stock p - quantity) (sellerId p) (isActive p).

(** The validators of the schema: [price] has [min: 0], [stock] has [min: 0]. *)
Definition valid (p : t) : bool :=
  atLeast 0%float (price p) && (0 <=? stock p).
End Product.

(** One entry of [req.body.items]. *)
Module CartItem.
Record t := mk { productId : ObjectId; quantity : Z }.
End CartItem.

(** [orderItemSchema] *)
Module OrderItem.
Record t := mk { productId : ObjectId; quantity : Z; price : Number }.

(** [quantity] has [min: 1], [price] has [min: 0]. *)
Definition valid (i : t) : bool :=
  (1 <=? quantity i) && atLeast 0%float (price i).
End OrderItem.

(** [orderSchema] *)
Module Order.
Record t := mk {
  _id : ObjectId;
  userId : ObjectId;
  items : list OrderItem.t;
  totalAmount : Number;
  status : string;
  shippingAddress : string;
  paymentMethod : string;
  paymentStatus : string;
  createdAt : Z;
  updatedAt : Z
}.

Definition statusEnum : list string :=
  ["pending"; "processing"; "shipped"; "delivered"; "cancelled"].
Definition paymentMethodEnum : list string := ["cod"; "card"; "upi"].
Definition paymentStatusEnum : list string := ["pending"; "paid"; "failed"].

Definition valid (o : t) : bool :=
  forallb OrderItem.valid (items o)
  && atLeast 0%float (totalAmount o)
  && bool_decide (status o ∈ statusEnum)
  && bool_decide (paymentMethod o ∈ paymentMethodEnum)
  && bool_decide (paymentStatus o ∈ paymentStatusEnum).

(** The update document [{ status }] applied by [findByIdAndUpdate]: only
    the [status] path is written. *)
Definition setStatus (o : t) (s : string) : t :=
  mk (_id o) (userId o) (items o) (totalAmount o) s (shippingAddress o)
     (paymentMethod o) (paymentStatus o) (createdAt o) (updatedAt o).

(** [orderSchema.pre("save")]: [this.updatedAt = Date.now()]. *)
Definition preSave (now : Z) (o : t) : t :=
  mk (_id o) (userId o) (items o) (totalAmount o) (status o)
     (shippingAddress o) (paymentMethod o) (paymentStatus o) (createdAt o) now.
End Order.

(** The fields [createOrder] passes to [Order.create]; every other path
    takes its schema default. *)
Record OrderFields := {
  f_userId : ObjectId;
  f_items : list OrderItem.t;
  f_totalAmount : Number;
  f_shippingAddress : string;
  f_paymentMethod : option string;
  f_paymentStatus : string
}.

(** ** The database and the server state *)

Record Database := {
  products : gmap ObjectId Product.t;
  orders : gmap ObjectId Order.t
}.

Definition withProducts (f : gmap ObjectId Product.t -> gmap ObjectId Product.t)
    (d : Database) : Database :=
  {| products := f (products d); orders := orders d |}.

Definition withOrders (f : gmap ObjectId Order.t -> gmap ObjectId Order.t)
    (d : Database) : Database :=
  {| products := products d; orders := f (orders d) |}.

(** Payloads of the socket events the controller emits. *)
Inductive Payload :=
  | NewOrder (orderId : ObjectId) (totalAmount : Number) (customer : string)
  | OrderStatusUpdate (orderId : ObjectId) (status : string)
  | AdminOrderUpdate (orderId : ObjectId) (status : string) (updatedBy : string).

(** [req.io.to(room).emit(event, payload)] *)
Record Emit := { room : string; event : string; payload : Payload }.

(** Database operations, in the order they are issued. *)
Inductive DbOp :=
  | OpStartTransaction
  | OpFindProduct (id : ObjectId)
  | OpSaveProduct (id : ObjectId) (stock : Z)
  | OpCreateOrder (id : ObjectId)
  | OpCommit
  | OpAbort
  | OpFindOrder (id : ObjectId)
  | OpUpdateOrder (id : ObjectId).

Record Server := {
  db : Database;              (* committed documents *)
  txn : option Database;      (* working copy of the open transaction *)
  io : list Emit;             (* events emitted, oldest first *)
  oplog : list DbOp           (* database operations, oldest first *)
}.

Definition idle (d : Database) : Server :=
  {| db := d; txn := None; io := []; oplog := [] |}.

(** What an operation bound to the session sees: the transaction's own
    working copy while one is open. *)
Definition view (s : Server) : Database := default (db s) (txn s).

(** ** Exceptions and the handler monad *)

Inductive Error :=
  | EmptyOrder
  | ProductUnavailable (productId : ObjectId)
  | InsufficientStock (productName : string)
  | ValidationError (model : string)
  | StorageError
  | TransactionError
  | TypeError.

(** [error.message].  The three errors the controller throws itself carry
    the text of the source; the messages of errors raised by the libraries
    are abbreviated. *)
Definition message (e : Error) : string :=
  match e with
  | EmptyOrder => "Order must contain at least one item"
  | ProductUnavailable id => "Product " +:+ id +:+ " not found or inactive"
  | InsufficientStock n => "Insufficient stock for product: " +:+ n
  | ValidationError m => m +:+ " validation failed"
  | StorageError => "storage error"
  | TransactionError => "Cannot call abortTransaction after calling commitTransaction"
  | TypeError => "Cannot read properties of undefined"
  end.

Inductive Completion (A : Type) :=
  | Normal (a : A)
  | Throw (e : Error).
Arguments Normal {A} a.
Arguments Throw {A} e.

Definition M (A : Type) : Type := Server -> Completion A * Server.

Definition ret {A} (a : A) : M A := fun s => (Normal a, s).

Definition bind {A B} (m : M A) (k : A -> M B) : M B :=
  fun s => match m s with
           | (Normal a, s') => k a s'
           | (Throw e, s') => (Throw e, s')
           end.

Definition throw {A} (e : Error) : M A := fun s => (Throw e, s).

(** [try { body } catch (error) { handler }] *)
Definition try_catch {A} (body : M A) (handler : Error -> M A) : M A :=
  fun s => match body s with
           | (Normal a, s') => (Normal a, s')
           | (Throw e, s') => handler e s'
           end.

Notation "'let*' x ':=' c 'in' k" := (bind c (fun x => k))
  (at level 10, x name, c at level 100, k at level 200, only parsing).
Notation "'let*' ' pat ':=' c 'in' k" :=
  (bind c (fun x => match x with pat => k end))
  (at level 10, pat pattern, c at level 100, k at level 200, only parsing).
Notation "c >> k" := (bind c (fun _ => k))
  (at level 100, k at level 200, right associativity, only parsing).

Definition record (op : DbOp) : M unit :=
  fun s => (Normal tt,
            {| db := db s; txn := txn s; io := io s; oplog := oplog s ++ [op] |}).

Definition emit (r e : string) (p : Payload) : M unit :=
  fun s => (Normal tt,
            {| db := db s; txn := txn s;
               io := io s ++ [{| room := r; event := e; payload := p |}];
               oplog := oplog s |}).

(** A write bound to the session goes to the transaction's working copy; with
    no transaction open it is applied to the committed documents at once. *)
Definition write (f : Database -> Database) : M unit :=
  fun s => (Normal tt,
            match txn s with
            | Some w => {| db := db s; txn := Some (f w); io := io s; oplog := oplog s |}
            | None => {| db := f (db s); txn := None; io := io s; oplog := oplog s |}
            end).

(** ** The session *)

(** [Order.startSession(); session.startTransaction()] *)
Definition startTransaction : M unit :=
  record OpStartTransaction >>
  fun s => (Normal tt,
            {| db := db s; txn := Some (db s); io := io s; oplog := oplog s |}).

(** [session.commitTransaction()]: the working copy becomes the committed
    state. *)
Definition commitTransaction : M unit :=
  record OpCommit >>
  fun s => (Normal tt,
            {| db := view s; txn := None; io := io s; oplog := oplog s |}).

(** [session.abortTransaction()]: the working copy is dropped.  On a session
    whose transaction is no longer open (it was committed) the driver
    throws instead. *)
Definition abortTransaction : M unit :=
  record OpAbort >>
  fun s => match txn s with
           | Some _ =>
               (Normal tt,
                {| db := db s; txn := None; io := io s; oplog := oplog s |})
           | None => (Throw TransactionError, s)
           end.

(** ** Model operations *)

(** [Product.findById(id).session(session)] *)
Definition Product_findById (id : ObjectId) : M (option Product.t) :=
  record (OpFindProduct id) >>
  fun s => (Normal (products (view s) !! id), s).

(** [product.save({ session })]: the schema validators run, then the document
    replaces the stored one. *)
Definition Product_save (id : ObjectId) (p : Product.t) : M unit :=
  record (OpSaveProduct id (Product.stock p)) >>
  if Product.valid p then write (withProducts <[id := p]>)
  else throw (ValidationError "Product").

(** What the environment decides for one request: the [_id] Mongo gives a
    new document, the clock, whether the storage layer refuses the insert of
    the order, and whether it fails to serve the read that follows the
    commit. *)
Record Env := {
  freshId : ObjectId;
  now : Z;
  storageDown : bool;
  readDown : bool
}.

(** The document [Order.create] builds from the given fields and the schema
    defaults ([status], [paymentMethod], [createdAt], [updatedAt]), after the
    [pre("save")] hook. *)
Definition Order_new (env : Env) (f : OrderFields) : Order.t :=
  Order.preSave (now env)
    (Order.mk (freshId env) (f_userId f) (f_items f) (f_totalAmount f)
       "pending" (f_shippingAddress f) (default "cod" (f_paymentMethod f))
       (f_paymentStatus f) (now env) (now env)).

(** [Order.create([fields], { session })] *)
Definition Order_create (env : Env) (f : OrderFields) : M Order.t :=
  let o := Order_new env f in
  record (OpCreateOrder (Order._id o)) >>
  if negb (Order.valid o) then throw (ValidationError "Order")
  else
    let* existing := (fun s => (Normal (orders (view s) !! Order._id o), s)) in
    if storageDown env || bool_decide (is_Some existing) then throw StorageError
    else write (withOrders <[Order._id o := o]>) >> ret o.

(** [Order.findById(id)], outside any session. *)
Definition Order_findById (id : ObjectId) : M (option Order.t) :=
  record (OpFindOrder id) >>
  fun s => (Normal (orders (db s) !! id), s).

(** [await Order.findById(id).populate(...).populate(...)] as [createOrder]
    issues it once the transaction is committed: the promise is rejected when
    the storage layer fails to serve the read. *)
Definition Order_findById_populate (env : Env) (id : ObjectId)
    : M (option Order.t) :=
  if readDown env then record (OpFindOrder id) >> throw StorageError
  else Order_findById id.

(** [Order.findByIdAndUpdate(id, { status }, { new: true, runValidators: true })]:
    an update query; document middleware such as [pre("save")] does not run
    for it, and the schema declares no automatic timestamps. *)
Definition Order_findByIdAndUpdate (id : ObjectId) (status : string)
    : M (option Order.t) :=
  record (OpUpdateOrder id) >>
  if negb (bool_decide (status ∈ Order.statusEnum)) then throw (ValidationError "Order")
  else
    let* found := (fun s => (Normal (orders (db s) !! id), s)) in
    match found with
    | None => ret None
    | Some o =>
        let o' := Order.setStatus o status in
        write (withOrders <[id := o']>) >> ret (Some o')
    end.

(** ** Requests and responses *)

(** [req.user], as set by the authentication middleware. *)
Module User.
Record t := mk { _id : ObjectId; name : string; role : string }.
End User.

(** The parts of an Express request the order controller reads.  A body
    field that is absent is [None]. *)
Record Request := {
  user : User.t;
  params_id : ObjectId;
  body_items : option (list CartItem.t);
  body_shippingAddress : string;
  body_paymentMethod : option string;
  body_status : option string
}.

Inductive Body :=
  | JsonUndefined
  | JsonMessage (msg : string)
  | JsonOrder (o : Order.t).

(** [res.status(code).json(body)] *)
Record Response := { statusCode : nat; json : Body }.

(** ** JavaScript values met in the controller *)

Inductive JsValue :=
  | JsUndefined
  | JsString (s : string).

(** Interpolation [`${v}`] in a template literal. *)
Definition interpolate (v : JsValue) : string :=
  match v with
  | JsUndefined => "undefined"
  | JsString s => s
  end.

(** [oid.sellerId] for an [ObjectId] value [oid]: an [ObjectId] is an
    identifier, not a product document, and has no such property. *)
Definition ObjectId_sellerId (oid : ObjectId) : JsValue := JsUndefined.

(** [doc[0]] for a single document [doc], as returned by [findById]: a
    document is not an array and has no property [0]. *)
Definition Document_at0 (doc : Order.t) : Body := JsonUndefined.

(** ** createOrder *)

(** The body of [for (const item of items)], with the two accumulators
    [totalAmount] and [processedItems]. *)
Fixpoint processItems (items : list CartItem.t) (totalAmount : Number)
    (processedItems : list OrderItem.t) : M (Number * list OrderItem.t) :=
  match items with
  | [] => ret (totalAmount, processedItems)
  | item :: rest =>
      let* found := Product_findById (CartItem.productId item) in
      match found with
      | None => throw (ProductUnavailable (CartItem.productId item))
      | Some product =>
          if negb (Product.isActive product) then
            throw (ProductUnavailable (CartItem.productId item))
          else if Product.stock product <? CartItem.quantity item then
            throw (InsufficientStock (Product.name product))
          else
            let itemTotal :=
              (Product.price product * Z2Number (CartItem.quantity item))%float in
            let totalAmount := (totalAmount + itemTotal)%float in
            let processedItems :=
              processedItems ++
                [OrderItem.mk (CartItem.productId item) (CartItem.quantity item)
                   (Product.price product)] in
            Product_save (CartItem.productId item)
              (Product.decreaseStock product (CartItem.quantity item)) >>
            processItems rest totalAmount processedItems
      end
  end.

(** [error.message || "Failed to create order"] *)
Definition messageOr (e : Error) (fallback : string) : string :=
  if bool_decide (message e = "") then fallback else message e.

Definition createOrder (env : Env) (req : Request) : M Response :=
  startTransaction >>
  try_catch
    (let* items :=
       match body_items req with
       | None | Some [] => throw EmptyOrder
       | Some items => ret items
       end in
     let* '(totalAmount, processedItems) := processItems items 0%float [] in
     let* order :=
       Order_create env
         {| f_userId := User._id (user req);
            f_items := processedItems;
            f_totalAmount := totalAmount;
            f_shippingAddress := body_shippingAddress req;
            f_paymentMethod := body_paymentMethod req;
            f_paymentStatus :=
              if bool_decide (body_paymentMethod req = Some "cod")
              then "pending" else "paid" |} in
     commitTransaction >>
     let* populatedOrder := Order_findById_populate env (Order._id order) in
     let* first :=
       match processedItems with
       | [] => throw TypeError
       | first :: _ => ret first
       end in
     emit ("seller-" +:+ interpolate (ObjectId_sellerId (OrderItem.productId first)))
       "new-order"
       (NewOrder (Order._id order) totalAmount (User.name (user req))) >>
     match populatedOrder with
     | None => throw TypeError
     | Some doc => ret {| statusCode := 201; json := Document_at0 doc |}
     end)
    (fun error =>
       abortTransaction >>
       ret {| statusCode := 400;
              json := JsonMessage (messageOr error "Failed to create order") |}).

(** ** getOrderById *)

Definition getOrderById (req : Request) : M Response :=
  try_catch
    (let* order := Order_findById (params_id req) in
     match order with
     | None => ret {| statusCode := 404; json := JsonMessage "Order not found" |}
     | Some order =>
         if negb (bool_decide (User.role (user req) = "admin"))
            && negb (bool_decide (Order.userId order = User._id (user req)))
         then ret {| statusCode := 403; json := JsonMessage "Not authorized" |}
         else ret {| statusCode := 200; json := JsonOrder order |}
     end)
    (fun _ => ret {| statusCode := 500; json := JsonMessage "Server error" |}).

(** ** updateOrderStatus *)

Definition validStatuses : list string :=
  ["pending"; "processing"; "shipped"; "delivered"; "cancelled"].

Definition updateOrderStatus (req : Request) : M Response :=
  try_catch
    (match body_status req with
     | Some status =>
         if negb (bool_decide (status ∈ validStatuses)) then
           ret {| statusCode := 400; json := JsonMessage "Invalid status" |}
         else
           let* order := Order_findByIdAndUpdate (params_id req) status in
           match order with
           | None => ret {| statusCode := 404; json := JsonMessage "Order not found" |}
           | Some order =>
               emit ("user-" +:+ Order.userId order) "order-status-update"
                 (OrderStatusUpdate (Order._id order) (Order.status order)) >>
               (if bool_decide (User.role (user req) = "admin") then
                  emit "admin" "admin-order-update"
                    (AdminOrderUpdate (Order._id order) (Order.status order)
                       (User.name (user req)))
                else ret tt) >>
               ret {| statusCode := 200; json := JsonOrder order |}
           end
     | None => ret {| statusCode := 400; json := JsonMessage "Invalid status" |}
     end)
    (fun _ => ret {| statusCode := 500; json := JsonMessage "Server error" |}).

(** Running a handler on an idle server holding the documents [d]. *)
Definition handle (h : M Response) (d : Database) : Completion Response * Server :=
  h (idle d).

(** ** What a handler leaves behind *)

Definition response (h : M Response) (d : Database) : Completion Response :=
  (handle h d).1.

Definition after (h : M Response) (d : Database) : Database :=
  db (handle h d).2.

Definition emitted (h : M Response) (d : Database) : list Emit :=
  io (handle h d).2.

Definition issued (h : M Response) (d : Database) : list DbOp :=
  oplog (handle h d).2.

(** The response, if the handler completed. *)
Definition response_value (c : Completion Response) : option Response :=
  match c with
  | Normal r => Some r
  | Throw _ => None
  end.

(** The status code of the response, if the handler completed. *)
Definition statusOf (c : Completion Response) : option nat :=
  match c with
  | Normal r => Some (statusCode r)
  | Throw _ => None
  end.

(** ** The item loop, as a relation on the working copy of the products

    [Reserved ps total processed items ps' total' processed'] : started on
    the products [ps] with the accumulators [total] and [processed], the loop
    runs through all of [items] without throwing and ends with the products
    [ps'] and the accumulators [total'] and [processed']. *)

Definition lineTotal (i : OrderItem.t) : Number :=
  (OrderItem.price i * Z2Number (OrderItem.quantity i))%float.

Inductive Reserved :
  gmap ObjectId Product.t -> Number -> list OrderItem.t -> list CartItem.t ->
  gmap ObjectId Product.t -> Number -> list OrderItem.t -> Prop :=
  | Reserved_nil ps total processed : Reserved ps total processed [] ps total processed
  | Reserved_cons ps total processed item rest p ps' total' processed' :
      ps !! CartItem.productId item = Some p ->
      Product.isActive p = true ->
      CartItem.quantity item <= Product.stock p ->
      Product.valid (Product.decreaseStock p (CartItem.quantity item)) = true ->
      let line := OrderItem.mk (CartItem.productId item) (CartItem.quantity item)
                    (Product.price p) in
      Reserved (<[CartItem.productId item :=
                   Product.decreaseStock p (CartItem.quantity item)]> ps)
               (total + lineTotal line)%float (processed ++ [line]) rest
               ps' total' processed' ->
      Reserved ps total processed (item :: rest) ps' total' processed'.

(** A transaction is open on the server, with this working copy. *)
Definition inTransaction (s : Server) (ps : gmap ObjectId Product.t)
    (os : gmap ObjectId Order.t) : Prop :=
  txn s = Some {| products := ps; orders := os |}.

(** The order document [createOrder] builds once the loop has ended with
    [totalAmount] and [processedItems]. *)
Definition placedOrder (env : Env) (req : Request) (totalAmount : Number)
    (processedItems : list OrderItem.t) : Order.t :=
  Order_new env
    {| f_userId := User._id (user req);
       f_items := processedItems;
       f_totalAmount := totalAmount;
       f_shippingAddress := body_shippingAddress req;
       f_paymentMethod := body_paymentMethod req;
       f_paymentStatus :=
         if bool_decide (body_paymentMethod req = Some "cod")
         then "pending" else "paid" |}.

(** ** The vocabulary of the properties *)

(** The stored line for a cart line: same product and quantity, and the
    price the product has in [ps]. *)
Definition captured (ps : gmap ObjectId Product.t) (c : CartItem.t)
    (i : OrderItem.t) : Prop :=
  OrderItem.productId i = CartItem.productId c
  /\ OrderItem.quantity i = CartItem.quantity c
  /\ exists p, ps !! CartItem.productId c = Some p
               /\ OrderItem.price i = Product.price p.

(** [total], then [+= price * quantity] for each line in turn, in binary64
    as the loop computes it. *)
Definition accumulate (total : Number) (items : list OrderItem.t) : Number :=
  foldl (fun acc i => (acc + lineTotal i)%float) total items.


Definition samePrices (ps ps' : gmap ObjectId Product.t) : Prop :=
  forall id, Product.price <$> ps' !! id = Product.price <$> ps !! id.

Definition stockNonNegative (ps : gmap ObjectId Product.t) : Prop :=
  map_Forall (fun _ p => 0 <= Product.stock p) ps.

(** One [createOrder] call, seen as a step on the committed documents. *)
Definition placeOrder (call : Env * Request) (d : Database) : Database :=
  after (createOrder call.1 call.2) d.

(** The committed documents after each call of a sequence, in order. *)
Fixpoint trajectory (calls : list (Env * Request)) (d : Database)
    : list Database :=
  match calls with
  | [] => []
  | call :: rest => placeOrder call d :: trajectory rest (placeOrder call d)
  end.

(** The precondition of the specification fails: no line items, or a line
    item whose quantity is zero or negative. *)
Definition violatesPreconditions (req : Request) : Prop :=
  match body_items req with
  | None => True
  | Some items => items = [] \/ Exists (fun c => CartItem.quantity c <= 0) items
  end.

(** A reservation is a product save issued with the decremented stock. *)
Definition isReservation (op : DbOp) : bool :=
  match op with
  | OpSaveProduct _ _ => true
  | _ => false
  end.

(** The specification's reading of a validation error: rejected, nothing
    reserved on the way, stock untouched. *)
Definition rejectedBeforeReservation (env : Env) (req : Request) (d : Database)
    : Prop :=
  statusOf (response (createOrder env req) d) = Some 400%nat
  /\ existsb isReservation (issued (createOrder env req) d) = false
  /\ after (createOrder env req) d = d.

(** The transition table of the specification: pending -> processing ->
    shipped -> delivered, and cancelled from pending or processing. *)
Definition spec_allowedTransitions : list (string * string) :=
  [ ("pending", "processing"); ("processing", "shipped"); ("shipped", "delivered");
    ("pending", "cancelled"); ("processing", "cancelled") ].

Definition spec_allowedTransition (from to : string) : bool :=
  bool_decide ((from, to) ∈ spec_allowedTransitions).

(** The specification's rule at one request: a transition outside the table
    is refused and the order keeps its status. *)
Definition respectsTransitionTable (req : Request) (d : Database) : Prop :=
  forall o s,
    orders d !! params_id req = Some o ->
    body_status req = Some s ->
    spec_allowedTransition (Order.status o) s = false ->
    statusOf (response (updateOrderStatus req) d) <> Some 200%nat
    /\ Order.status <$> orders (after (updateOrderStatus req) d) !! params_id req
       = Some (Order.status o).

(** ** Sample documents and requests *)

Definition P1 (stock : Z) : Product.t :=
  Product.mk "Widget" 10%float stock "seller1" true.

(** One product, [P1], and no order yet. *)
Definition shop (stock : Z) : Database :=
  {| products := {[ "P1" := P1 stock ]}; orders := ∅ |}.

Definition secondShop : Database :=
  {| products :=
       {[ "P1" := P1 5;
          "P2" := Product.mk "Gadget" 2.5%float 1 "seller2" true ]};
     orders := ∅ |}.

(** [P1] after its seller has withdrawn it. *)
Definition retiredShop : Database :=
  {| products := {[ "P1" := Product.mk "Widget" 10%float 5 "seller1" false ]};
     orders := ∅ |}.

Definition alice : User.t := User.mk "alice" "Alice" "customer".
Definition bob : User.t := User.mk "bob" "Bob" "customer".
Definition root : User.t := User.mk "root" "Root" "admin".

Definition cart (items : list CartItem.t) (method : option string) : Request :=
  {| user := alice; params_id := ""; body_items := Some items;
     body_shippingAddress := "1 Main St"; body_paymentMethod := method;
     body_status := None |}.

Definition overdrawnCart : Request :=
  cart [CartItem.mk "P1" 2; CartItem.mk "P2" 4] (Some "cod").

Definition zeroLineCart : Request :=
  cart [CartItem.mk "P1" 2; CartItem.mk "P1" 0] (Some "cod").

Definition negativeCart : Request := cart [CartItem.mk "P1" (-2)] (Some "cod").

Definition env0 : Env :=
  {| freshId := "O1"; now := 1000; storageDown := false; readDown := false |}.

(** The storage layer refuses the insert of the order. *)
Definition outage : Env :=
  {| freshId := "O1"; now := 1000; storageDown := true; readDown := false |}.

(** The storage layer accepts the order and the commit, and then fails to
    serve the read of the new order. *)
Definition lateOutage : Env :=
  {| freshId := "O1"; now := 1000; storageDown := false; readDown := true |}.

Definition threeCalls : list (Env * Request) :=
  [ ({| freshId := "O1"; now := 1000; storageDown := false; readDown := false |},
     cart [CartItem.mk "P1" 3] (Some "cod"));
    ({| freshId := "O2"; now := 1001; storageDown := false; readDown := false |},
     cart [CartItem.mk "P1" 3] (Some "card"));
    ({| freshId := "O3"; now := 1002; storageDown := false; readDown := false |},
     cart [CartItem.mk "P1" 2] None) ].

(** An order of alice's in the ledger, created and last saved at time 1000. *)
Definition order1 (status : string) : Order.t :=
  Order.mk "O1" "alice" [OrderItem.mk "P1" 2 10%float] 20%float
    status "1 Main St" "cod" "pending" 1000 1000.

Definition ledger (status : string) : Database :=
  {| products := {[ "P1" := P1 3 ]}; orders := {[ "O1" := order1 status ]} |}.

Definition lookup_by (u : User.t) (id : ObjectId) : Request :=
  {| user := u; params_id := id; body_items := None;
     body_shippingAddress := ""; body_paymentMethod := None;
     body_status := None |}.

Definition statusRequest (u : User.t) (id : ObjectId) (status : string) : Request :=
  {| user := u; params_id := id; body_items := None;
     body_shippingAddress := ""; body_paymentMethod := None;
     body_status := Some status |}.

(** ** Role middleware and the routers

    [protect] (authentication) and [uploadMultiple] (file upload) are not
    part of the sources; a request is taken as it leaves them, with
    [req.user] set. *)

(** What a middleware does with a request: hand it on with [next()], or
    answer it with a status code and a message. *)
Inductive Gate :=
  | Next
  | Answer (code : nat) (msg : string).

(** [authorize(...roles)] *)
Definition authorize (roles : list string) (req : Request) : M Gate :=
  if negb (bool_decide (User.role (user req) ∈ roles)) then
    ret (Answer 403 ("User role " +:+ User.role (user req)
                       +:+ " is not authorized to access this route"))
  else ret Next.

(** [isOwnerOrAdmin(Product)] *)
Definition isOwnerOrAdmin (req : Request) : M Gate :=
  try_catch
    (let* resource := Product_findById (params_id req) in
     match resource with
     | None => ret (Answer 404 "Resource not found")
     | Some resource =>
         if bool_decide (User.role (user req) = "admin")
            || bool_decide (Product.sellerId resource = User._id (user req))
         then ret Next
         else ret (Answer 403 "You are not authorized to perform this action")
     end)
    (fun _ => ret (Answer 500 "Server error")).

(** [router.METHOD(path, ...chain, handler)]: the middlewares run in order,
    and the first one that answers ends the request. *)
Fixpoint route {R : Type} (answer : nat -> string -> R) (chain : list (M Gate))
    (handler : M R) : M R :=
  match chain with
  | [] => handler
  | middleware :: rest =>
      let* gate := middleware in
      match gate with
      | Next => route answer rest handler
      | Answer code msg => ret (answer code msg)
      end
  end.

Definition answerJson (code : nat) (msg : string) : Response :=
  {| statusCode := code; json := JsonMessage msg |}.

(** [router.post("/", authorize("customer"), createOrder)] *)
Definition postOrder (env : Env) (req : Request) : M Response :=
  route answerJson [authorize ["customer"] req] (createOrder env req).

(** [router.put("/:id/status", authorize("admin"), updateOrderStatus)] *)
Definition putOrderStatus (req : Request) : M Response :=
  route answerJson [authorize ["admin"] req] (updateOrderStatus req).

(** ** Responses of the other handlers *)

Inductive Json (A : Type) :=
  | Message (msg : string)
  | Data (a : A).
Arguments Message {A} msg.
Arguments Data {A} a.

Record Reply (A : Type) := { replyCode : nat; replyJson : Json A }.
Arguments replyCode {A} r.
Arguments replyJson {A} r.

Definition answerReply {A : Type} (code : nat) (msg : string) : Reply A :=
  {| replyCode := code; replyJson := Message msg |}.

(** Running any handler on an idle server holding the documents [d]. *)
Definition run {A : Type} (h : M A) (d : Database) : Completion A * Server :=
  h (idle d).

Definition replied {A : Type} (h : M A) (d : Database) : option A :=
  match (run h d).1 with
  | Normal a => Some a
  | Throw _ => None
  end.

Definition stored {A : Type} (h : M A) (d : Database) : Database :=
  db (run h d).2.

(** ** Listing orders *)

(** [.sort({ createdAt: -1 })]: newest first.  Mongo leaves the order of
    documents with equal keys open; here they keep the order of the scan. *)
Fixpoint insertNewest (o : Order.t) (l : list Order.t) : list Order.t :=
  match l with
  | [] => [o]
  | x :: rest =>
      if Order.createdAt x <=? Order.createdAt o then o :: l
      else x :: insertNewest o rest
  end.

Definition sortNewestFirst (l : list Order.t) : list Order.t :=
  foldr insertNewest [] l.

(** The documents of the collection that match a query, sorted. *)
Definition matching (matches : Order.t -> bool) (d : Database) : list Order.t :=
  sortNewestFirst (filter (fun o => matches o = true) (map_to_list (orders d)).*2).

(** [Order.find(query).skip(skip).limit(limit).sort({ createdAt: -1 })] *)
Definition Order_find (matches : Order.t -> bool) (skip limit : option nat)
    : M (list Order.t) :=
  fun s =>
    let sorted := matching matches (db s) in
    let skipped := drop (default 0%nat skip) sorted in
    (Normal (match limit with
             | Some n => take n skipped
             | None => skipped
             end), s).

(** [Order.countDocuments(query)] *)
Definition Order_countDocuments (matches : Order.t -> bool) : M nat :=
  fun s => (Normal (length (matching matches (db s))), s).

(** [getMyOrders] *)
Definition getMyOrders (req : Request) : M (Reply (list Order.t)) :=
  try_catch
    (let* orders :=
       Order_find (fun o => bool_decide (Order.userId o = User._id (user req)))
         None None in
     ret {| replyCode := 200; replyJson := Data orders |})
    (fun _ => ret (answerReply 500 "Server error")).

(** [req.query] of [GET /api/orders].  [page] and [limit] are given as the
    positive integers their text denotes; an absent parameter is [None]. *)
Record OrdersQuery := {
  query_page : option positive;
  query_limit : option positive;
  query_status : option string;
  query_userId : option string
}.

(** The body of the answer of [getAllOrders]. *)
Record OrdersPage := {
  page_orders : list Order.t;
  page_page : Z;
  page_pages : Z;
  page_total : Z
}.

(** [if (v) ...] on a query parameter: absent and empty strings are falsy. *)
Definition truthy (v : option string) : option string :=
  match v with
  | Some s => if bool_decide (s = "") then None else Some s
  | None => None
  end.

(** The Mongo query [{ status, userId }], each condition present only when
    the parameter is truthy. *)
Definition queryMatches (q : OrdersQuery) (o : Order.t) : bool :=
  match truthy (query_status q) with
  | Some s => bool_decide (Order.status o = s)
  | None => true
  end
  && match truthy (query_userId q) with
     | Some u => bool_decide (Order.userId o = u)
     | None => true
     end.

(** [Math.ceil(total / limit)] for a positive [limit]. *)
Definition ceilDiv (total limit : Z) : Z := (total + limit - 1) / limit.

(** [getAllOrders] *)
Definition getAllOrders (q : OrdersQuery) : M (Reply OrdersPage) :=
  try_catch
    (let page := Z.pos (default 1%positive (query_page q)) in
     let limit := Z.pos (default 10%positive (query_limit q)) in
     let skip := (page - 1) * limit in
     let* orders :=
       Order_find (queryMatches q) (Some (Z.to_nat skip)) (Some (Z.to_nat limit)) in
     let* total := Order_countDocuments (queryMatches q) in
     ret {| replyCode := 200;
            replyJson := Data {| page_orders := orders;
                                 page_page := page;
                                 page_pages := ceilDiv (Z.of_nat total) limit;
                                 page_total := Z.of_nat total |} |})
    (fun _ => ret (answerReply 500 "Server error")).

(** [router.get("/", authorize("admin"), getAllOrders)] *)
Definition getOrders (req : Request) (q : OrdersQuery) : M (Reply OrdersPage) :=
  route answerReply [authorize ["admin"] req] (getAllOrders q).

(** ** The product controller *)

(** [product.isActive = false] *)
Definition Product_deactivate (p : Product.t) : Product.t :=
  Product.mk (Product.name p) (Product.price p) (Product.stock p)
    (Product.sellerId p) false.

(** [getProductById] *)
Definition getProductById (req : Request) : M (Reply (ObjectId * Product.t)) :=
  try_catch
    (let* product := Product_findById (params_id req) in
     match product with
     | None => ret (answerReply 404 "Product not found")
     | Some product =>
         if negb (Product.isActive product) then
           ret (answerReply 404 "Product not found")
         else ret {| replyCode := 200; replyJson := Data (params_id req, product) |}
     end)
    (fun _ => ret (answerReply 500 "Server error")).

(** [deleteProduct] *)
Definition deleteProduct (req : Request) : M (Reply (ObjectId * Product.t)) :=
  try_catch
    (let* product := Product_findById (params_id req) in
     match product with
     | None => ret (answerReply 404 "Product not found")
     | Some product =>
         Product_save (params_id req) (Product_deactivate product) >>
         ret (answerReply 200 "Product removed successfully")
     end)
    (fun _ => ret (answerReply 500 "Server error")).

(** The fields of [req.body] that [updateProduct] copies into [updateData]
    and that bear on the modelled part of a product; an undefined field is
    [None] and is removed from the update.  [price] and [stock] are given as
    the numbers Mongoose casts them to.  [description] is not kept in
    [Product.t] but its validator runs; [category] and [images] are not kept
    either and have no validator. *)
Record ProductUpdate := {
  set_name : option string;
  set_description : option string;
  set_price : option Number;
  set_stock : option Z
}.

(** The update validators of the paths that are set: [name] is trimmed and
    required, [description] is required, [price] and [stock] have [min: 0].
    [trim] stands for [String.prototype.trim]. *)
Definition ProductUpdate_valid (trim : string -> string) (u : ProductUpdate) : bool :=
  match set_name u with
  | Some n => negb (bool_decide (trim n = ""))
  | None => true
  end
  && match set_description u with
     | Some t => negb (bool_decide (t = ""))
     | None => true
     end
  && match set_price u with
     | Some p => atLeast 0%float p
     | None => true
     end
  && match set_stock u with
     | Some n => 0 <=? n
     | None => true
     end.

(** [$set] of the paths present in the update. *)
Definition Product_applyUpdate (trim : string -> string) (u : ProductUpdate)
    (p : Product.t) : Product.t :=
  Product.mk (from_option trim (Product.name p) (set_name u))
    (default (Product.price p) (set_price u))
    (default (Product.stock p) (set_stock u))
    (Product.sellerId p) (Product.isActive p).

(** [Product.findByIdAndUpdate(id, updateData, { new: true, runValidators: true })] *)
Definition Product_findByIdAndUpdate (trim : string -> string) (id : ObjectId)
    (u : ProductUpdate) : M (option Product.t) :=
  if negb (ProductUpdate_valid trim u) then throw (ValidationError "Product")
  else
    let* found := (fun s => (Normal (products (db s) !! id), s)) in
    match found with
    | None => ret None
    | Some p =>
        let p' := Product_applyUpdate trim u p in
        write (withProducts <[id := p']>) >> ret (Some p')
    end.

(** [updateProduct] *)
Definition updateProduct (trim : string -> string) (req : Request)
    (u : ProductUpdate) : M (Reply (ObjectId * Product.t)) :=
  try_catch
    (let* product := Product_findByIdAndUpdate trim (params_id req) u in
     match product with
     | None => ret (answerReply 404 "Product not found")
     | Some product =>
         ret {| replyCode := 200; replyJson := Data (params_id req, product) |}
     end)
    (fun _ => ret (answerReply 500 "Server error")).

(** [router.put("/:id", authorize("seller", "admin"), isOwnerOrAdmin(Product),
    uploadMultiple, updateProduct)] *)
Definition putProduct (trim : string -> string) (req : Request) (u : ProductUpdate)
    : M (Reply (ObjectId * Product.t)) :=
  route answerReply [authorize ["seller"; "admin"] req; isOwnerOrAdmin req]
    (updateProduct trim req u).

(** [router.delete("/:id", authorize("seller", "admin"), isOwnerOrAdmin(Product),
    deleteProduct)] *)
Definition removeProduct (req : Request) : M (Reply (ObjectId * Product.t)) :=
  route answerReply [authorize ["seller"; "admin"] req; isOwnerOrAdmin req]
    (deleteProduct req).

(** ** The socket handler *)

(** The rooms a socket joins on connection, for the user it authenticated
    as (besides the room socket.io names after the socket itself). *)
Definition joinedRooms (u : User.t) : list string :=
  ("user-" +:+ User._id u)
  :: (if bool_decide (User.role u = "admin") then ["admin"]
      else if bool_decide (User.role u = "seller") then ["seller-" +:+ User._id u]
      else []).

(** [io.to(room).emit(...)] reaches the sockets that joined [room]. *)
Definition receives (u : User.t) (e : Emit) : Prop := room e ∈ joinedRooms u.

(** Who may change or remove the product [p]: an admin, or the seller who
    owns it. *)
Definition mayManage (u : User.t) (p : Product.t) : Prop :=
  User.role u = "admin"
  \/ (User.role u = "seller" /\ Product.sellerId p = User._id u).

(** ** More sample data *)

(** The seller of [P1], and another seller. *)
Definition sam : User.t := User.mk "seller1" "Sam" "seller".
Definition tom : User.t := User.mk "seller2" "Tom" "seller".

Definition priceCut : ProductUpdate :=
  {| set_name := None; set_description := None;
     set_price := Some 8%float; set_stock := None |}.

Definition oversold : ProductUpdate :=
  {| set_name := None; set_description := None;
     set_price := None; set_stock := Some (-1) |}.

(** A list of orders runs from the newest to the oldest. *)
Fixpoint newestFirst (l : list Order.t) : Prop :=
  match l with
  | [] => True
  | x :: rest =>
      Forall (fun y => Order.createdAt y <= Order.createdAt x) rest
      /\ newestFirst rest
  end.

(** The same query, asking for page [k]. *)
Definition atPage (q : OrdersQuery) (k : nat) : OrdersQuery :=
  {| query_page := Some (Pos.of_nat k); query_limit := query_limit q;
     query_status := query_status q; query_userId := query_userId q |}.

(** The orders [getAllOrders] returns for page [k] of a query. *)
Definition ordersOnPage (q : OrdersQuery) (d : Database) (k : nat) : list Order.t :=
  match replied (getAllOrders (atPage q k)) d with
  | Some {| replyJson := Data pg |} => page_orders pg
  | _ => []
  end.

(** The number of pages [getAllOrders] announces for a query. *)
Definition pagesOf (q : OrdersQuery) (d : Database) : nat :=
  match replied (getAllOrders q) d with
  | Some {| replyJson := Data pg |} => Z.to_nat (page_pages pg)
  | _ => 0%nat
  end.

(** Five orders of alice's, created at times 1 to 5. *)
Definition busyLedger : Database :=
  {| products := ∅;
     orders :=
       list_to_map
         ((fun '(id, time) =>
             (id, Order.mk id "alice" [] 0%float "pending" "" "cod" "pending" time time))
            <$> [("A", 1); ("B", 2); ("C", 3); ("D", 4); ("E", 5)]) |}.

Definition twoPerPage : OrdersQuery :=
  {| query_page := None; query_limit := Some 2%positive;
     query_status := Some "pending"; query_userId := Some "" |}.


(** The total quantity a cart asks of the product [id]. *)
Definition demand (id : ObjectId) (items : list CartItem.t) : Z :=
  foldr (fun c acc =>
           (if bool_decide (CartItem.productId c = id) then CartItem.quantity c
            else 0) + acc)
    0 items.

(** The product [p] with [n] units less in stock. *)
Definition withdrawn (n : Z) (p : Product.t) : Product.t :=
  Product.mk (Product.name p) (Product.price p) (Product.stock p - n)
    (Product.sellerId p) (Product.isActive p).


(** ** The API as a whole *)

(** The requests served by the modelled routes. *)
Inductive ApiCall :=
  | PostOrder (env : Env) (req : Request)
  | PutOrderStatus (req : Request)
  | GetOrder (req : Request)
  | GetMyOrders (req : Request)
  | GetOrders (req : Request) (q : OrdersQuery)
  | GetProduct (req : Request)
  | PutProduct (req : Request) (u : ProductUpdate)
  | DeleteProduct (req : Request).

(** The committed documents after one request. *)
Definition serve (trim : string -> string) (call : ApiCall) (d : Database)
    : Database :=
  match call with
  | PostOrder env req => stored (postOrder env req) d
  | PutOrderStatus req => stored (putOrderStatus req) d
  | GetOrder req => stored (getOrderById req) d
  | GetMyOrders req => stored (getMyOrders req) d
  | GetOrders req q => stored (getOrders req q) d
  | GetProduct req => stored (getProductById req) d
  | PutProduct req u => stored (putProduct trim req u) d
  | DeleteProduct req => stored (removeProduct req) d
  end.

(** The committed documents after a sequence of requests. *)
Definition serveAll (trim : string -> string) (calls : list ApiCall) (d : Database)
    : Database :=
  foldl (fun d call => serve trim call d) d calls.

(** What one request can do to the documents. *)
Inductive Effect (trim : string -> string) (d : Database) : Database -> Prop :=
  | Effect_none : Effect trim d d
  | Effect_order items ps' total processed id o :
      Reserved (products d) 0%float [] items ps' total processed ->
      orders d !! id = None ->
      Effect trim d {| products := ps'; orders := <[id := o]> (orders d) |}
  | Effect_status id o s :
      orders d !! id = Some o ->
      Effect trim d (withOrders <[id := Order.setStatus o s]> d)
  | Effect_update id p u :
      products d !! id = Some p ->
      ProductUpdate_valid trim u = true ->
      Effect trim d (withProducts <[id := Product_applyUpdate trim u p]> d)
  | Effect_remove id p :
      products d !! id = Some p ->
      Product.valid p = true ->
      Effect trim d (withProducts <[id := Product_deactivate p]> d).

(** The order [o'] is the order [o], up to its status. *)
Definition sameOrderButStatus (o o' : Order.t) : Prop :=
  Order.setStatus o' (Order.status o) = o.

(** The product [p'] is the product [p] later on: same seller, and not
    active again if [p] was not. *)
Definition sameProductLater (p p' : Product.t) : Prop :=
  Product.sellerId p' = Product.sellerId p
  /\ (Product.isActive p = false -> Product.isActive p' = false).

(** A day at the shop: alice orders two units, the order is shipped, the
    seller cuts the price and tries a negative stock, then removes the
    product, and alice's next order comes too late. *)
Definition busyDay : list ApiCall :=
  [ PostOrder env0 (cart [CartItem.mk "P1" 2] (Some "cod"));
    PutOrderStatus (statusRequest root "O1" "shipped");
    PutProduct (lookup_by sam "P1") priceCut;
    PutProduct (lookup_by sam "P1") oversold;
    GetMyOrders (lookup_by alice "");
    DeleteProduct (lookup_by sam "P1");
    PostOrder {| freshId := "O2"; now := 2000; storageDown := false;
                 readDown := false |}
      (cart [CartItem.mk "P1" 1] (Some "card")) ].

(** ** Exact amounts *)






(** ** Carts and stocks within the safe integers *)

(** Every stock is at most [Number.MAX_SAFE_INTEGER]. *)
Definition safeStocks (ps : gmap ObjectId Product.t) : Prop :=
  map_Forall (fun _ p => Product.stock p <= maxSafeInteger) ps.



(** * Properties *)

Ltac step :=
  unfold bind, ret, throw, record, write, emit, view, try_catch; simpl.

Arguments processItems : simpl never.

(** ** The loop and the insert, run inside a transaction *)

Lemma processItems_run items :
  forall total processed s ps os,
    inTransaction s ps os ->
    match processItems items total processed s with
    | (Normal (total', processed'), s') =>
        exists ps', Reserved ps total processed items ps' total' processed'
                    /\ inTransaction s' ps' os /\ db s' = db s /\ io s' = io s
    | (Throw e, s') =>
        is_Some (txn s') /\ db s' = db s /\ io s' = io s
    end.
Proof.
  induction items as [|item rest IH]; intros total processed s ps os Hs.
  - unfold processItems. step. exists ps. split; [constructor | auto].
  - unfold processItems; fold processItems.
    unfold Product_findById, Product_save. step.
    unfold inTransaction in Hs. rewrite Hs. simpl.
    destruct (ps !! CartItem.productId item) as [p|] eqn:Hp; simpl; [|eauto].
    destruct (Product.isActive p) eqn:Hact; simpl; [|eauto].
    destruct (Product.stock p <? CartItem.quantity item) eqn:Hlt; simpl; [eauto|].
    destruct (Product.valid _) eqn:Hval; simpl; [|eauto].
    match goal with |- context [processItems rest ?t ?pr ?s0] =>
      specialize (IH t pr s0 _ os eq_refl); revert IH;
      destruct (processItems rest t pr s0) as [[[total' processed']|e] s'];
      simpl; intros IH
    end.
    + destruct IH as (ps' & HR & Htx & Hdb & Hio). exists ps'.
      split; [|auto].
      apply Z.ltb_ge in Hlt. eapply Reserved_cons; eauto.
    + exact IH.
Qed.

Lemma samePrices_decreaseStock ps id p q :
  ps !! id = Some p -> samePrices ps (<[id := Product.decreaseStock p q]> ps).
Proof.
  intros Hp id'. destruct (decide (id = id')) as [->|Hne].
  - rewrite lookup_insert_eq, Hp. reflexivity.
  - rewrite lookup_insert_ne by done. reflexivity.
Qed.

Lemma captured_samePrices ps ps' c i :
  samePrices ps ps' -> captured ps' c i -> captured ps c i.
Proof.
  intros Hsame (Hid & Hq & p' & Hp' & Hprice). repeat split; auto.
  specialize (Hsame (CartItem.productId c)). rewrite Hp' in Hsame.
  destruct (ps !! CartItem.productId c) as [p|]; simpl in Hsame; [|discriminate].
  exists p. split; [done|]. congruence.
Qed.

Lemma Reserved_samePrices ps total processed items ps' total' processed' :
  Reserved ps total processed items ps' total' processed' -> samePrices ps ps'.
Proof.
  induction 1 as [|ps total processed item rest p ps' total' processed'
                    Hp Hact Hq Hval line HR IH].
  - intros id. reflexivity.
  - intros id. rewrite (IH id).
    apply (samePrices_decreaseStock ps _ p (CartItem.quantity item) Hp).
Qed.

Lemma Reserved_lines ps total processed items ps' total' processed' :
  Reserved ps total processed items ps' total' processed' ->
  exists added,
    processed' = processed ++ added
    /\ total' = accumulate total added
    /\ Forall2 (captured ps) items added.
Proof.
  induction 1 as [|ps total processed item rest p ps' total' processed'
                    Hp Hact Hq Hval line HR IH].
  - exists []. rewrite app_nil_r. simpl. split; [done|]. split; [done|constructor].
  - destruct IH as (added & -> & -> & Hall).
    exists (line :: added). rewrite <- app_assoc. simpl.
    split; [done|]. split; [done|].
    constructor.
    + repeat split; eauto.
    + eapply Forall2_impl; [|exact Hall].
      intros c i. apply captured_samePrices.
      apply (samePrices_decreaseStock ps _ p (CartItem.quantity item) Hp).
Qed.

Lemma Reserved_stockNonNegative ps total processed items ps' total' processed' :
  Reserved ps total processed items ps' total' processed' ->
  stockNonNegative ps -> stockNonNegative ps'.
Proof.
  induction 1 as [|ps total processed item rest p ps' total' processed'
                    Hp Hact Hq Hval line HR IH]; intros Hnn; [done|].
  apply IH. intros id p'. destruct (decide (CartItem.productId item = id)) as [<-|Hne].
  - rewrite lookup_insert_eq. intros [= <-]. simpl. lia.
  - rewrite lookup_insert_ne by done. apply Hnn.
Qed.

Lemma Order_create_run env f s ps os :
  inTransaction s ps os ->
  match Order_create env f s with
  | (Normal o, s') =>
      o = Order_new env f /\ Order.valid o = true
      /\ os !! freshId env = None /\ storageDown env = false
      /\ inTransaction s' ps (<[freshId env := o]> os)
      /\ db s' = db s /\ io s' = io s
  | (Throw e, s') => is_Some (txn s') /\ db s' = db s /\ io s' = io s
  end.
Proof.
  intros Hs. unfold Order_create. step. unfold inTransaction in *. rewrite Hs. simpl.
  destruct (Order.valid _) eqn:Hval; simpl; [|eauto].
  destruct (storageDown env); simpl; [eauto|].
  case_bool_decide as Hex; simpl; [eauto|].
  unfold withOrders; simpl. repeat split; auto.
  destruct (os !! freshId env) eqn:E; [|done]. exfalso. apply Hex. eauto.
Qed.

(** Every run of [createOrder] ends in one of three ways.  Before the commit:
    a 400 response with the committed documents as they were and nothing
    emitted.  After the loop went through every cart line, the order was
    inserted and the transaction committed: a 201 response and the
    [new-order] event, or, when the read that follows the commit fails, the
    [catch] block's [abortTransaction] is refused by the committed session,
    the handler's promise is rejected and no response is sent, with the
    decrements and the order committed. *)
Lemma createOrder_run env req d :
  exists c s',
    handle (createOrder env req) d = (c, s') /\ txn s' = None
    /\ ((exists r, c = Normal r /\ statusCode r = 400%nat
                   /\ db s' = d /\ io s' = [])
        \/ (exists items ps' total processed,
              body_items req = Some items /\ items <> []
              /\ Reserved (products d) 0%float [] items ps' total processed
              /\ Order.valid (placedOrder env req total processed) = true
              /\ orders d !! freshId env = None
              /\ storageDown env = false
              /\ db s' = {| products := ps';
                            orders := <[freshId env :=
                                         placedOrder env req total processed]>
                                        (orders d) |}
              /\ ((readDown env = false
                   /\ c = Normal {| statusCode := 201; json := JsonUndefined |}
                   /\ io s' = [{| room := "seller-undefined"; event := "new-order";
                                  payload := NewOrder (freshId env) total
                                               (User.name (user req)) |}])
                  \/ (readDown env = true
                      /\ c = Throw TransactionError /\ io s' = [])))).
Proof.
  unfold handle, createOrder, startTransaction, abortTransaction. step.
  destruct (body_items req) as [[|item rest]|] eqn:Hitems; simpl;
    try (do 2 eexists; split; [reflexivity|]; split; [reflexivity|];
         left; eexists; split; [reflexivity|]; auto; fail).
  match goal with |- context [processItems ?l ?t ?pr ?s0] =>
    pose proof (processItems_run l t pr s0 (products d) (orders d)) as Hrun;
    destruct (processItems l t pr s0) as [[[total processed]|e] s1]
  end.
  all: specialize (Hrun ltac:(destruct d; reflexivity)).
  2: { destruct Hrun as ([w Hw] & Hdb & Hio). rewrite Hw. do 2 eexists.
       split; [reflexivity|]. split; [reflexivity|]. left.
       eexists. split; [reflexivity|]. simpl. auto. }
  destruct Hrun as (ps' & HR & Htx & Hdb & Hio). simpl in Hdb, Hio.
  match goal with |- context [Order_create env ?f s1] =>
    pose proof (Order_create_run env f s1 ps' (orders d) Htx) as Hcreate;
    change (Order_new env f) with (placedOrder env req total processed) in Hcreate;
    destruct (Order_create env f s1) as [[o|e] s2]
  end.
  2: { destruct Hcreate as ([w Hw] & Hdb2 & Hio2). rewrite Hw. do 2 eexists.
       split; [reflexivity|]. split; [reflexivity|]. left.
       eexists. split; [reflexivity|]. simpl. rewrite Hdb2, Hio2. auto. }
  destruct Hcreate as (-> & Hval & Hfresh & Hup & Htx2 & Hdb2 & Hio2).
  unfold commitTransaction, Order_findById_populate, Order_findById.
  unfold inTransaction in Htx2.
  destruct (Reserved_lines _ _ _ _ _ _ _ HR) as (added & Hadd & _ & Hall).
  simpl in Hadd. subst processed.
  inversion Hall as [|c i rest' added' Hci Hrest]; subst.
  destruct (readDown env) eqn:Hread; step; rewrite Htx2; simpl.
  - do 2 eexists. split; [reflexivity|]. split; [reflexivity|]. right.
    exists (item :: rest), ps', total, (i :: added').
    rewrite Hio2, Hio. simpl. repeat split; auto.
  - rewrite lookup_insert_eq. simpl.
    do 2 eexists. split; [reflexivity|]. split; [reflexivity|]. right.
    exists (item :: rest), ps', total, (i :: added').
    rewrite Hio2, Hio. simpl. repeat split; auto.
Qed.

(** ** Properties of order placement *)

(** A [createOrder] that is answered 400 (empty order, missing or inactive
    product, insufficient stock, a validation or storage failure of the
    insert) leaves the committed documents, and so the stock of every
    product, exactly as they were before the call: the decrements made inside
    the transaction are dropped by the abort. *)
Lemma createOrder_rejected_restores_stock env req d :
  statusOf (response (createOrder env req) d) = Some 400%nat ->
  after (createOrder env req) d = d.
Proof.
  unfold response, after.
  destruct (createOrder_run env req d) as (c & s' & Hrun & _ & Hcases).
  rewrite Hrun. simpl. intros Hfail.
  destruct Hcases as [(r & _ & _ & Hdb & _) | (items & ps' & total & processed & H)];
    [done|].
  destruct H as (_ & _ & _ & _ & _ & _ & _ & [(_ & -> & _) | (_ & -> & _)]);
    discriminate.
Qed.

(** The second line of this cart cannot be served: the decrement of the
    first line was already written in the transaction ([OpSaveProduct "P1" 3])
    and is undone. *)
Example createOrder_partial_decrement_undone :
  issued (createOrder env0 overdrawnCart) secondShop
    = [OpStartTransaction; OpFindProduct "P1"; OpSaveProduct "P1" 3;
       OpFindProduct "P2"; OpAbort]
  /\ after (createOrder env0 overdrawnCart) secondShop = secondShop.
Proof.
  split; [vm_compute; reflexivity|].
  apply createOrder_rejected_restores_stock. vm_compute. reflexivity.
Qed.

(** C2, on the code.  A call can fail after its transaction was committed,
    and then the decrement survives the failed order.  [P1] has stock 5 and
    the cart asks for 2; the loop and the insert succeed and the transaction
    is committed; the read of the order that follows the commit fails.  That
    read is inside the [try] block, so the [catch] block runs and calls
    [abortTransaction] on the committed session, which the driver refuses:
    the handler ends with that error and sends no response and no event.  The
    call has failed, yet the stock of [P1] is 3, not 5, and the order is in
    the ledger. *)
Theorem createOrder_failure_after_commit_keeps_decrement :
  response (createOrder lateOutage (cart [CartItem.mk "P1" 2] (Some "cod"))) (shop 5)
    = Throw TransactionError
  /\ issued (createOrder lateOutage (cart [CartItem.mk "P1" 2] (Some "cod"))) (shop 5)
     = [OpStartTransaction; OpFindProduct "P1"; OpSaveProduct "P1" 3;
        OpCreateOrder "O1"; OpCommit; OpFindOrder "O1"; OpAbort]
  /\ emitted (createOrder lateOutage (cart [CartItem.mk "P1" 2] (Some "cod"))) (shop 5)
     = []
  /\ Product.stock <$> products (shop 5) !! "P1" = Some 5
  /\ Product.stock
       <$> products (after (createOrder lateOutage
                              (cart [CartItem.mk "P1" 2] (Some "cod"))) (shop 5))
           !! "P1"
     = Some 3
  /\ Order.status
       <$> orders (after (createOrder lateOutage
                            (cart [CartItem.mk "P1" 2] (Some "cod"))) (shop 5))
           !! "O1"
     = Some "pending".
Proof. vm_compute. auto 10. Qed.

(** The kinds of failure, each on a concrete call: no line items, an unknown
    product, an inactive product, too little stock, and a storage failure at
    the insert of the order (after the decrement of [P1] was written in the
    transaction).  Each is answered 400 and the documents are as before. *)
Example createOrder_failure_kinds :
  handle (createOrder env0 (cart [] (Some "cod"))) (shop 5)
  = (Normal {| statusCode := 400;
               json := JsonMessage "Order must contain at least one item" |},
     {| db := shop 5; txn := None; io := [];
        oplog := [OpStartTransaction; OpAbort] |})
  /\ handle (createOrder env0 (cart [CartItem.mk "P9" 1] (Some "cod"))) (shop 5)
     = (Normal {| statusCode := 400;
                  json := JsonMessage "Product P9 not found or inactive" |},
        {| db := shop 5; txn := None; io := [];
           oplog := [OpStartTransaction; OpFindProduct "P9"; OpAbort] |})
  /\ handle (createOrder env0 (cart [CartItem.mk "P1" 1] (Some "cod"))) retiredShop
     = (Normal {| statusCode := 400;
                  json := JsonMessage "Product P1 not found or inactive" |},
        {| db := retiredShop; txn := None; io := [];
           oplog := [OpStartTransaction; OpFindProduct "P1"; OpAbort] |})
  /\ handle (createOrder env0 (cart [CartItem.mk "P1" 6] (Some "cod"))) (shop 5)
     = (Normal {| statusCode := 400;
                  json := JsonMessage "Insufficient stock for product: Widget" |},
        {| db := shop 5; txn := None; io := [];
           oplog := [OpStartTransaction; OpFindProduct "P1"; OpAbort] |})
  /\ handle (createOrder outage (cart [CartItem.mk "P1" 2] (Some "cod"))) (shop 5)
     = (Normal {| statusCode := 400; json := JsonMessage "storage error" |},
        {| db := shop 5; txn := None; io := [];
           oplog := [OpStartTransaction; OpFindProduct "P1"; OpSaveProduct "P1" 3;
                     OpCreateOrder "O1"; OpAbort] |}).
Proof. vm_compute. auto 10. Qed.

(** *** Validation of the cart *)

Lemma invalid_line_blocks_order ps items added :
  Forall2 (captured ps) items added ->
  Exists (fun c => CartItem.quantity c <= 0) items ->
  forallb OrderItem.valid added = false.
Proof.
  induction 1 as [|c i items added (_ & Hq & _) Hall IH]; intros Hex.
  - inversion Hex.
  - simpl. apply andb_false_iff.
    inversion Hex as [c' l' Hc|c' l' Hrest]; subst.
    + left. unfold OrderItem.valid. rewrite Hq.
      apply andb_false_iff. left. apply Z.leb_gt. lia.
    + right. auto.
Qed.

(** C4 (as the code has it). A cart that violates the preconditions is always
    answered with 400 and leaves the committed documents unchanged.  Only the
    missing or empty cart is rejected before any product is read or reserved;
    quantities are not checked by the controller: a zero or negative quantity
    is caught by the order schema when the order is inserted, after the loop
    has written its stock changes inside the transaction, and the abort
    discards them. *)
Theorem createOrder_invalid_cart_rejected env req d :
  violatesPreconditions req ->
  statusOf (response (createOrder env req) d) = Some 400%nat
  /\ after (createOrder env req) d = d
  /\ emitted (createOrder env req) d = []
  /\ (body_items req = None \/ body_items req = Some [] ->
      issued (createOrder env req) d = [OpStartTransaction; OpAbort]).
Proof.
  intros Hbad. unfold response, after, emitted, issued.
  destruct (createOrder_run env req d) as (c & s' & Hrun & _ & Hcases).
  rewrite Hrun. simpl.
  assert (Hempty : body_items req = None \/ body_items req = Some [] ->
                   oplog s' = [OpStartTransaction; OpAbort]).
  { intros Hnone. revert Hrun.
    unfold handle, createOrder, startTransaction, abortTransaction. step.
    destruct Hnone as [-> | ->]; simpl; intros [= _ <-]; reflexivity. }
  destruct Hcases as [(r & -> & Hcode & Hdb & Hio)
                     | (items & ps' & total & processed & H)].
  - simpl. rewrite Hcode. auto.
  - exfalso. destruct H as (Hitems & Hne & HR & Hval & _).
    unfold violatesPreconditions in Hbad. rewrite Hitems in Hbad.
    destruct Hbad as [->|Hex]; [done|].
    destruct (Reserved_lines _ _ _ _ _ _ _ HR) as (added & Hadd & _ & Hall).
    simpl in Hadd. subst processed.
    pose proof (invalid_line_blocks_order _ _ _ Hall Hex) as Hinv.
    unfold Order.valid, placedOrder, Order_new in Hval. simpl in Hval.
    rewrite Hinv in Hval. discriminate.
Qed.

Lemma createOrder_invalid_cart_rejected_witness :
  statusOf (response (createOrder env0 zeroLineCart) (shop 5)) = Some 400%nat
  /\ after (createOrder env0 zeroLineCart) (shop 5) = shop 5
  /\ emitted (createOrder env0 zeroLineCart) (shop 5) = []
  /\ (body_items zeroLineCart = None \/ body_items zeroLineCart = Some [] ->
      issued (createOrder env0 zeroLineCart) (shop 5)
      = [OpStartTransaction; OpAbort]).
Proof.
  apply (createOrder_invalid_cart_rejected env0 zeroLineCart (shop 5)).
  simpl. right. apply Exists_cons_tl, Exists_cons_hd. simpl. lia.
Defined.

(** C4, as stated, fails: a cart with the single line [P1 x (-2)] violates the
    precondition, yet the loop saves [P1] with stock 7 inside the transaction
    before the insert of the order is refused. *)
Lemma negative_quantity_is_reserved_first :
  violatesPreconditions negativeCart
  /\ issued (createOrder env0 negativeCart) (shop 5)
     = [OpStartTransaction; OpFindProduct "P1"; OpSaveProduct "P1" 7;
        OpCreateOrder "O1"; OpAbort]
  /\ ~ rejectedBeforeReservation env0 negativeCart (shop 5).
Proof.
  split; [simpl; right; apply Exists_cons_hd; simpl; lia|].
  split; [vm_compute; reflexivity|].
  intros (_ & Hres & _). vm_compute in Hres. discriminate.
Qed.

(** *** The created order *)

(** A 201 response means the loop went through the whole cart and the order
    built from its accumulators was committed under the fresh id. *)
Lemma createOrder_success env req d :
  statusOf (response (createOrder env req) d) = Some 201%nat ->
  exists items ps' total processed,
    body_items req = Some items /\ items <> []
    /\ Reserved (products d) 0%float [] items ps' total processed
    /\ orders d !! freshId env = None
    /\ response (createOrder env req) d
       = Normal {| statusCode := 201; json := JsonUndefined |}
    /\ after (createOrder env req) d
       = {| products := ps';
            orders := <[freshId env := placedOrder env req total processed]>
                        (orders d) |}
    /\ emitted (createOrder env req) d
       = [{| room := "seller-undefined"; event := "new-order";
             payload := NewOrder (freshId env) total (User.name (user req)) |}].
Proof.
  unfold response, after, emitted.
  destruct (createOrder_run env req d) as (c & s' & Hrun & _ & Hcases).
  rewrite Hrun. simpl. intros Hok.
  destruct Hcases as [(r & -> & Hcode & _) | (items & ps' & total & processed & H)].
  - simpl in Hok. rewrite Hcode in Hok. discriminate.
  - destruct H as (Hitems & Hne & HR & _ & Hfresh & _ & Hdb & Hend).
    destruct Hend as [(_ & -> & Hio) | (_ & -> & _)]; [|discriminate].
    exists items, ps', total, processed. auto 10.
Qed.

(** The first scenario of the specification: two units at 10.00 from a stock
    of five. *)
Example scenario_order_succeeds :
  let d' := after (createOrder env0 (cart [CartItem.mk "P1" 2] (Some "cod"))) (shop 5) in
  Product.stock <$> products d' !! "P1" = Some 3
  /\ Order.totalAmount <$> orders d' !! "O1" = Some 20%float
  /\ Order.status <$> orders d' !! "O1" = Some "pending".
Proof. vm_compute. auto. Qed.

(** The second scenario: the same cart against a stock of one. *)
Example scenario_insufficient_stock :
  response (createOrder env0 (cart [CartItem.mk "P1" 2] (Some "cod"))) (shop 1)
  = Normal {| statusCode := 400;
              json := JsonMessage "Insufficient stock for product: Widget" |}
  /\ after (createOrder env0 (cart [CartItem.mk "P1" 2] (Some "cod"))) (shop 1)
     = shop 1.
Proof. vm_compute. auto. Qed.

(** A successfully created order has status [pending]; its payment method
    is the one the request names, ["cod"] by the schema default when it names
    none; its payment status is computed from the request: [pending] when the
    request names ["cod"], [paid] otherwise. *)
Lemma createOrder_initial_status env req d :
  statusOf (response (createOrder env req) d) = Some 201%nat ->
  exists o,
    orders d !! freshId env = None
    /\ orders (after (createOrder env req) d) !! freshId env = Some o
    /\ Order.status o = "pending"
    /\ Order.paymentMethod o = default "cod" (body_paymentMethod req)
    /\ Order.paymentStatus o
       = if bool_decide (body_paymentMethod req = Some "cod")
         then "pending" else "paid".
Proof.
  intros Hok.
  destruct (createOrder_success env req d Hok)
    as (items & ps' & total & processed & _ & _ & _ & Hfresh & _ & Hdb & _).
  exists (placedOrder env req total processed).
  rewrite Hdb. simpl. rewrite lookup_insert_eq. auto.
Qed.

Example createOrder_by_card :
  (fun o => (Order.status o, Order.paymentMethod o, Order.paymentStatus o))
    <$> orders (after (createOrder env0 (cart [CartItem.mk "P1" 1] (Some "card")))
                  (shop 5)) !! "O1"
  = Some ("pending", "card", "paid").
Proof. vm_compute. reflexivity. Qed.

(** C9, on the code.  A successful order whose request names no payment
    method is stored with the payment method ["cod"], the schema default, and
    yet with payment status ["paid"]: the controller computes the payment
    status from the request's field ([undefined === "cod"] is false) before
    the default is applied.  Its status is [pending]. *)
Theorem createOrder_unnamed_method_is_cod_but_paid env req d :
  statusOf (response (createOrder env req) d) = Some 201%nat ->
  body_paymentMethod req = None ->
  exists o,
    orders (after (createOrder env req) d) !! freshId env = Some o
    /\ Order.status o = "pending"
    /\ Order.paymentMethod o = "cod"
    /\ Order.paymentStatus o = "paid".
Proof.
  intros Hok Hnone.
  destruct (createOrder_initial_status env req d Hok)
    as (o & _ & Ho & Hstatus & Hmethod & Hpaid).
  rewrite Hnone in Hmethod, Hpaid. exists o. auto.
Qed.

Lemma createOrder_unnamed_method_is_cod_but_paid_witness :
  exists o,
    orders (after (createOrder env0 (cart [CartItem.mk "P1" 1] None)) (shop 5))
      !! freshId env0 = Some o
    /\ Order.status o = "pending"
    /\ Order.paymentMethod o = "cod"
    /\ Order.paymentStatus o = "paid".
Proof.
  apply (createOrder_unnamed_method_is_cod_but_paid env0
           (cart [CartItem.mk "P1" 1] None) (shop 5)).
  - vm_compute. reflexivity.
  - reflexivity.
Defined.

(** *** Stock never goes negative *)

Lemma placeOrder_stockNonNegative call d :
  stockNonNegative (products d) ->
  stockNonNegative (products (placeOrder call d)).
Proof.
  intros Hnn. unfold placeOrder, after.
  destruct (createOrder_run call.1 call.2 d) as (c & s' & Hrun & _ & Hcases).
  rewrite Hrun. simpl.
  destruct Hcases as [(r & _ & _ & -> & _) | (items & ps' & total & processed & H)];
    [done|].
  destruct H as (_ & _ & HR & _ & _ & _ & -> & _). simpl.
  eapply Reserved_stockNonNegative; eauto.
Qed.

(** Every stock the loop saves is the old stock minus a quantity that did
    not exceed it. *)
Lemma Reserved_decrements_within_stock ps total processed items ps' total' processed' :
  Reserved ps total processed items ps' total' processed' ->
  forall id p', ps' !! id = Some p' ->
    ps !! id = Some p' \/ 0 <= Product.stock p'.
Proof.
  induction 1 as [|ps total processed item rest p ps' total' processed'
                    Hp Hact Hq Hval line HR IH]; intros id p' Hp'; [auto|].
  destruct (IH id p' Hp') as [Hin|Hnn]; [|auto].
  destruct (decide (CartItem.productId item = id)) as [<-|Hne].
  - rewrite lookup_insert_eq in Hin. injection Hin as <-. right. simpl. lia.
  - rewrite lookup_insert_ne in Hin by done. auto.
Qed.

(** C6. Starting from documents in which every product's stock is
    non-negative, the stock of every product is non-negative after each call
    of any sequence of [createOrder] calls. *)
Theorem stock_never_negative calls d :
  stockNonNegative (products d) ->
  Forall (fun d' => stockNonNegative (products d')) (trajectory calls d).
Proof.
  revert d. induction calls as [|call rest IH]; intros d Hnn; simpl.
  - constructor.
  - pose proof (placeOrder_stockNonNegative call d Hnn) as Hnext.
    constructor; [exact Hnext | apply IH, Hnext].
Qed.

Lemma stock_never_negative_witness :
  Forall (fun d' => stockNonNegative (products d')) (trajectory threeCalls (shop 5)).
Proof.
  apply (stock_never_negative threeCalls (shop 5)).
  unfold stockNonNegative. apply (bool_decide_unpack _). vm_compute. reflexivity.
Defined.

(** The stock of [P1] along those three calls: 5, then 2 (served), 2
    (refused), 0 (served). *)
Example stock_along_threeCalls :
  (fun d' => Product.stock <$> products d' !! "P1") <$> trajectory threeCalls (shop 5)
  = [Some 2; Some 2; Some 0].
Proof. vm_compute. reflexivity. Qed.

(** *** The notification and the response *)

(** C8, evaluated on the first scenario.  [P1] belongs to ["seller1"], and the
    order is created; but the room is computed from [processedItems[0]
    .productId.sellerId], where [productId] holds [product._id], so the event
    goes to the room ["seller-undefined"], which no seller socket joins, and
    the body sent is [populatedOrder[0]] of a single document, that is,
    nothing. *)
Theorem new_order_event_misses_seller :
  Product.sellerId <$> products (shop 5) !! "P1" = Some "seller1"
  /\ response (createOrder env0 (cart [CartItem.mk "P1" 2] (Some "cod"))) (shop 5)
     = Normal {| statusCode := 201; json := JsonUndefined |}
  /\ room <$> emitted (createOrder env0 (cart [CartItem.mk "P1" 2] (Some "cod")))
                (shop 5)
     = ["seller-undefined"]
  /\ "seller-undefined" <> "seller-" +:+ "seller1".
Proof. vm_compute. repeat split; discriminate. Qed.

(** The same holds of every successful call, whoever owns the products. *)
Lemma new_order_room_is_constant env req d :
  statusOf (response (createOrder env req) d) = Some 201%nat ->
  json <$> response_value (response (createOrder env req) d) = Some JsonUndefined
  /\ room <$> emitted (createOrder env req) d = ["seller-undefined"].
Proof.
  intros Hok.
  destruct (createOrder_success env req d Hok)
    as (items & ps' & total & processed & _ & _ & _ & _ & -> & _ & ->).
  auto.
Qed.

(** ** Reading one order *)

(** C10. For an existing order, a requester who is neither an admin nor the
    order's user gets 403 with a message and no order data; an admin, or the
    order's user, gets the order.  Nothing is written. *)
Theorem getOrderById_authorization req d o :
  orders d !! params_id req = Some o ->
  (User.role (user req) <> "admin" /\ User._id (user req) <> Order.userId o ->
   response (getOrderById req) d
   = Normal {| statusCode := 403; json := JsonMessage "Not authorized" |})
  /\ (User.role (user req) = "admin" \/ User._id (user req) = Order.userId o ->
      response (getOrderById req) d
      = Normal {| statusCode := 200; json := JsonOrder o |})
  /\ after (getOrderById req) d = d.
Proof.
  intros Ho. unfold response, after, handle, getOrderById, Order_findById. step.
  rewrite Ho. simpl.
  repeat case_bool_decide; simpl; intuition congruence.
Qed.

Lemma getOrderById_authorization_witness :
  (User.role (user (lookup_by bob "O1")) <> "admin"
   /\ User._id (user (lookup_by bob "O1")) <> Order.userId (order1 "pending") ->
   response (getOrderById (lookup_by bob "O1")) (ledger "pending")
   = Normal {| statusCode := 403; json := JsonMessage "Not authorized" |})
  /\ (User.role (user (lookup_by bob "O1")) = "admin"
      \/ User._id (user (lookup_by bob "O1")) = Order.userId (order1 "pending") ->
      response (getOrderById (lookup_by bob "O1")) (ledger "pending")
      = Normal {| statusCode := 200; json := JsonOrder (order1 "pending") |})
  /\ after (getOrderById (lookup_by bob "O1")) (ledger "pending") = ledger "pending".
Proof.
  apply (getOrderById_authorization (lookup_by bob "O1") (ledger "pending")
           (order1 "pending")).
  vm_compute. reflexivity.
Defined.

(** The three requesters on the same order. *)
Example getOrderById_three_requesters :
  statusOf (response (getOrderById (lookup_by bob "O1")) (ledger "pending")) = Some 403%nat
  /\ statusOf (response (getOrderById (lookup_by alice "O1")) (ledger "pending")) = Some 200%nat
  /\ statusOf (response (getOrderById (lookup_by root "O1")) (ledger "pending")) = Some 200%nat.
Proof. vm_compute. auto. Qed.

(** ** Status updates *)

(** What [updateOrderStatus] does with a requested status [s]. *)
Lemma updateOrderStatus_run req d s :
  body_status req = Some s ->
  handle (updateOrderStatus req) d
  = if bool_decide (s ∈ validStatuses) then
      match orders d !! params_id req with
      | Some o =>
          let o' := Order.setStatus o s in
          (Normal {| statusCode := 200; json := JsonOrder o' |},
           {| db := withOrders <[params_id req := o']> d;
              txn := None;
              io := {| room := "user-" +:+ Order.userId o;
                       event := "order-status-update";
                       payload := OrderStatusUpdate (Order._id o) s |}
                    :: (if bool_decide (User.role (user req) = "admin") then
                          [{| room := "admin"; event := "admin-order-update";
                              payload := AdminOrderUpdate (Order._id o) s
                                           (User.name (user req)) |}]
                        else []);
              oplog := [OpUpdateOrder (params_id req)] |})
      | None =>
          (Normal {| statusCode := 404; json := JsonMessage "Order not found" |},
           {| db := d; txn := None; io := [];
              oplog := [OpUpdateOrder (params_id req)] |})
      end
    else
      (Normal {| statusCode := 400; json := JsonMessage "Invalid status" |}, idle d).
Proof.
  intros Hs. unfold handle, updateOrderStatus, Order_findByIdAndUpdate.
  rewrite Hs. step.
  assert (Henum : Order.statusEnum = validStatuses) by reflexivity.
  case_bool_decide as Hvalid; simpl; [|reflexivity].
  rewrite Henum. rewrite (bool_decide_eq_true_2 _ Hvalid). simpl.
  destruct (orders d !! params_id req) as [o|]; simpl; [|reflexivity].
  case_bool_decide; reflexivity.
Qed.

(** C1 (as the code has it). [updateOrderStatus] consults no transition
    table.  For an existing order, every requested status among the five valid
    ones is accepted (200) whatever the current status of the order is,
    terminal ones included, and becomes the order's status.  A requested
    status that is not one of the five is refused (400) and all documents are
    left unchanged. *)
Theorem updateOrderStatus_accepts_every_valid_status req d s o :
  body_status req = Some s ->
  orders d !! params_id req = Some o ->
  (s ∈ validStatuses ->
   statusOf (response (updateOrderStatus req) d) = Some 200%nat
   /\ Order.status <$> orders (after (updateOrderStatus req) d) !! params_id req
      = Some s)
  /\ (s ∉ validStatuses ->
      statusOf (response (updateOrderStatus req) d) = Some 400%nat
      /\ after (updateOrderStatus req) d = d).
Proof.
  intros Hs Ho. unfold response, after.
  rewrite (updateOrderStatus_run req d s Hs).
  split.
  - intros Hvalid. rewrite (bool_decide_eq_true_2 _ Hvalid), Ho. simpl.
    rewrite lookup_insert_eq. auto.
  - intros Hinvalid. rewrite (bool_decide_eq_false_2 _ Hinvalid). auto.
Qed.

(** An order that is [delivered] is set to [cancelled]. *)
Lemma updateOrderStatus_accepts_every_valid_status_witness :
  statusOf (response (updateOrderStatus (statusRequest root "O1" "cancelled"))
              (ledger "delivered")) = Some 200%nat
  /\ Order.status
       <$> orders (after (updateOrderStatus (statusRequest root "O1" "cancelled"))
                     (ledger "delivered"))
           !! params_id (statusRequest root "O1" "cancelled")
     = Some "cancelled".
Proof.
  apply (proj1 (updateOrderStatus_accepts_every_valid_status
                  (statusRequest root "O1" "cancelled") (ledger "delivered")
                  "cancelled" (order1 "delivered") eq_refl eq_refl)).
  apply (bool_decide_unpack _). vm_compute. reflexivity.
Defined.

(** C1, as stated, fails: [pending -> shipped] is not in the table, yet the
    request is answered 200 and the order is [shipped]; likewise
    [delivered -> cancelled]. *)
Lemma transition_table_not_enforced :
  spec_allowedTransition "pending" "shipped" = false
  /\ statusOf (response (updateOrderStatus (statusRequest root "O1" "shipped"))
                 (ledger "pending")) = Some 200%nat
  /\ Order.status <$> orders (after (updateOrderStatus (statusRequest root "O1" "shipped"))
                                (ledger "pending")) !! "O1" = Some "shipped"
  /\ ~ respectsTransitionTable (statusRequest root "O1" "shipped") (ledger "pending")
  /\ ~ respectsTransitionTable (statusRequest root "O1" "cancelled") (ledger "delivered").
Proof.
  split; [vm_compute; reflexivity|].
  split; [vm_compute; reflexivity|].
  split; [vm_compute; reflexivity|].
  split.
  - intros H. destruct (H (order1 "pending") "shipped") as [Hcode _];
      try (vm_compute; reflexivity).
    apply Hcode. vm_compute. reflexivity.
  - intros H. destruct (H (order1 "delivered") "cancelled") as [Hcode _];
      try (vm_compute; reflexivity).
    apply Hcode. vm_compute. reflexivity.
Qed.

(** The last scenario of the specification, as the code runs it: the second
    call succeeds and the order ends [cancelled]. *)
Example scenario_delivered_then_cancelled :
  let d1 := after (updateOrderStatus (statusRequest root "O1" "delivered")) (ledger "shipped") in
  let d2 := after (updateOrderStatus (statusRequest root "O1" "cancelled")) d1 in
  Order.status <$> orders d1 !! "O1" = Some "delivered"
  /\ statusOf (response (updateOrderStatus (statusRequest root "O1" "cancelled")) d1)
     = Some 200%nat
  /\ Order.status <$> orders d2 !! "O1" = Some "cancelled".
Proof. vm_compute. auto. Qed.

(** C7, on the code.  A successful status update changes the [status] path
    only: [findByIdAndUpdate] is an update query, the [pre("save")] hook that
    refreshes [updatedAt] does not run for it, and [updatedAt] keeps its old
    value, so it is not the time of the transition whenever that is later. *)
Theorem updateOrderStatus_keeps_updatedAt req d s o :
  body_status req = Some s ->
  s ∈ validStatuses ->
  orders d !! params_id req = Some o ->
  statusOf (response (updateOrderStatus req) d) = Some 200%nat
  /\ exists o',
       orders (after (updateOrderStatus req) d) !! params_id req = Some o'
       /\ Order.status o' = s
       /\ Order.updatedAt o' = Order.updatedAt o
       /\ forall transitionTime,
            Order.updatedAt o < transitionTime ->
            Order.updatedAt o' <> transitionTime.
Proof.
  intros Hs Hvalid Ho. unfold response, after.
  rewrite (updateOrderStatus_run req d s Hs).
  rewrite (bool_decide_eq_true_2 _ Hvalid), Ho. simpl.
  split; [reflexivity|].
  exists (Order.setStatus o s). rewrite lookup_insert_eq.
  repeat split. simpl. lia.
Qed.

Lemma updateOrderStatus_keeps_updatedAt_witness :
  statusOf (response (updateOrderStatus (statusRequest root "O1" "processing"))
              (ledger "pending")) = Some 200%nat
  /\ exists o',
       orders (after (updateOrderStatus (statusRequest root "O1" "processing"))
                 (ledger "pending"))
         !! params_id (statusRequest root "O1" "processing") = Some o'
       /\ Order.status o' = "processing"
       /\ Order.updatedAt o' = Order.updatedAt (order1 "pending")
       /\ forall transitionTime,
            Order.updatedAt (order1 "pending") < transitionTime ->
            Order.updatedAt o' <> transitionTime.
Proof.
  apply (updateOrderStatus_keeps_updatedAt
           (statusRequest root "O1" "processing") (ledger "pending") "processing"
           (order1 "pending")).
  - reflexivity.
  - apply (bool_decide_unpack _). vm_compute. reflexivity.
  - vm_compute. reflexivity.
Defined.

(** * The rest of the API *)

(** ** The order router *)

Lemma authorize_run roles req s :
  authorize roles req s
  = (Normal (if bool_decide (User.role (user req) ∈ roles) then Next
             else Answer 403 ("User role " +:+ User.role (user req)
                                +:+ " is not authorized to access this route")),
     s).
Proof. unfold authorize. case_bool_decide; reflexivity. Qed.

(** X1. Orders are placed by customers only: for any other role the route
    answers 403 before [createOrder] runs, so no transaction is started,
    nothing is emitted and the documents are unchanged. *)
Theorem postOrder_customers_only env req d :
  User.role (user req) <> "customer" ->
  handle (postOrder env req) d
  = (Normal (answerJson 403 ("User role " +:+ User.role (user req)
                               +:+ " is not authorized to access this route")),
     idle d).
Proof.
  intros Hrole. unfold handle, postOrder. simpl. unfold bind.
  rewrite authorize_run. rewrite bool_decide_eq_false_2; [reflexivity|].
  intros Hin. apply list_elem_of_singleton in Hin. done.
Qed.

Lemma postOrder_customers_only_witness :
  handle (postOrder env0 (statusRequest root "" "")) (shop 5)
  = (Normal (answerJson 403 ("User role "
                               +:+ User.role (user (statusRequest root "" ""))
                               +:+ " is not authorized to access this route")),
     idle (shop 5)).
Proof.
  apply (postOrder_customers_only env0 (statusRequest root "" "") (shop 5)).
  vm_compute. discriminate.
Defined.

(** For a customer the route is [createOrder] itself. *)
Lemma postOrder_customer env req d :
  User.role (user req) = "customer" ->
  handle (postOrder env req) d = handle (createOrder env req) d.
Proof.
  intros Hrole. unfold handle, postOrder. simpl. unfold bind.
  rewrite authorize_run. rewrite bool_decide_eq_true_2; [reflexivity|].
  apply list_elem_of_singleton, Hrole.
Qed.

(** X2. The status of an order is changed by admins only: for any other
    role the route answers 403, the ledger is unchanged and no event is
    emitted, whatever status is asked for. *)
Theorem putOrderStatus_admins_only req d :
  User.role (user req) <> "admin" ->
  statusOf (response (putOrderStatus req) d) = Some 403%nat
  /\ after (putOrderStatus req) d = d
  /\ emitted (putOrderStatus req) d = [].
Proof.
  intros Hrole. unfold response, after, emitted, handle, putOrderStatus.
  simpl. unfold bind. rewrite authorize_run.
  rewrite bool_decide_eq_false_2; [auto|].
  intros Hin. apply list_elem_of_singleton in Hin. done.
Qed.

Lemma putOrderStatus_admins_only_witness :
  statusOf (response (putOrderStatus (statusRequest alice "O1" "delivered"))
              (ledger "pending")) = Some 403%nat
  /\ after (putOrderStatus (statusRequest alice "O1" "delivered")) (ledger "pending")
     = ledger "pending"
  /\ emitted (putOrderStatus (statusRequest alice "O1" "delivered")) (ledger "pending")
     = [].
Proof.
  apply (putOrderStatus_admins_only (statusRequest alice "O1" "delivered")
           (ledger "pending")).
  vm_compute. discriminate.
Defined.

(** X3. A status change made through the route always raises both events:
    when the route answers 200 the requester is an admin, the order existed
    and now has the requested status, and exactly the owner's
    [order-status-update] and then the [admin-order-update] were emitted. *)
Theorem putOrderStatus_raises_both_events req d :
  statusOf (response (putOrderStatus req) d) = Some 200%nat ->
  exists o s,
    User.role (user req) = "admin"
    /\ orders d !! params_id req = Some o
    /\ body_status req = Some s
    /\ orders (after (putOrderStatus req) d) !! params_id req
       = Some (Order.setStatus o s)
    /\ emitted (putOrderStatus req) d
       = [ {| room := "user-" +:+ Order.userId o;
              event := "order-status-update";
              payload := OrderStatusUpdate (Order._id o) s |};
           {| room := "admin"; event := "admin-order-update";
              payload := AdminOrderUpdate (Order._id o) s
                           (User.name (user req)) |} ].
Proof.
  unfold response, after, emitted, handle, putOrderStatus. simpl. unfold bind.
  rewrite authorize_run.
  case_bool_decide as Hrole; [|simpl; discriminate].
  apply list_elem_of_singleton in Hrole. intros Hok.
  destruct (body_status req) as [s|] eqn:Hs.
  - pose proof (updateOrderStatus_run req d s Hs) as Hrun.
    unfold handle in Hrun. rewrite Hrun in *. clear Hrun.
    case_bool_decide as Hvalid; [|simpl in Hok; discriminate].
    destruct (orders d !! params_id req) as [o|] eqn:Ho;
      [|simpl in Hok; discriminate].
    exists o, s. simpl. rewrite lookup_insert_eq.
    rewrite (bool_decide_eq_true_2 _ Hrole). auto.
  - exfalso. revert Hok. unfold updateOrderStatus. rewrite Hs. step. discriminate.
Qed.

Lemma putOrderStatus_raises_both_events_witness :
  exists o s,
    User.role (user (statusRequest root "O1" "processing")) = "admin"
    /\ orders (ledger "pending") !! params_id (statusRequest root "O1" "processing")
       = Some o
    /\ body_status (statusRequest root "O1" "processing") = Some s
    /\ orders (after (putOrderStatus (statusRequest root "O1" "processing"))
                 (ledger "pending"))
         !! params_id (statusRequest root "O1" "processing")
       = Some (Order.setStatus o s)
    /\ emitted (putOrderStatus (statusRequest root "O1" "processing")) (ledger "pending")
       = [ {| room := "user-" +:+ Order.userId o;
              event := "order-status-update";
              payload := OrderStatusUpdate (Order._id o) s |};
           {| room := "admin"; event := "admin-order-update";
              payload := AdminOrderUpdate (Order._id o) s
                           (User.name (user (statusRequest root "O1" "processing"))) |} ].
Proof.
  apply (putOrderStatus_raises_both_events (statusRequest root "O1" "processing")
           (ledger "pending")).
  vm_compute. reflexivity.
Defined.

(** ** The product router, removals and updates *)

Lemma isOwnerOrAdmin_run req d :
  isOwnerOrAdmin req (idle d)
  = (Normal (match products d !! params_id req with
             | None => Answer 404 "Resource not found"
             | Some p =>
                 if bool_decide (User.role (user req) = "admin")
                    || bool_decide (Product.sellerId p = User._id (user req))
                 then Next
                 else Answer 403 "You are not authorized to perform this action"
             end),
     {| db := d; txn := None; io := [];
        oplog := [OpFindProduct (params_id req)] |}).
Proof.
  unfold isOwnerOrAdmin, Product_findById. step.
  destruct (products d !! params_id req) as [p|]; simpl; [|reflexivity].
  destruct (_ || _); reflexivity.
Qed.

(** The two gates in front of [updateProduct] and [deleteProduct] let a
    request through exactly when the product exists and the requester may
    manage it; otherwise they answer 403%nat or 404 and the handler does not
    run. *)
Lemma product_gates R (answer : nat -> string -> R) (handler : M R) req d :
  route answer [authorize ["seller"; "admin"] req; isOwnerOrAdmin req] handler (idle d)
  = match products d !! params_id req with
    | Some p =>
        if bool_decide (mayManage (user req) p) then
          handler {| db := d; txn := None; io := [];
                     oplog := [OpFindProduct (params_id req)] |}
        else if bool_decide (User.role (user req) ∈ ["seller"; "admin"]) then
          (Normal (answer 403%nat "You are not authorized to perform this action"),
           {| db := d; txn := None; io := [];
              oplog := [OpFindProduct (params_id req)] |})
        else
          (Normal (answer 403%nat ("User role " +:+ User.role (user req)
                                 +:+ " is not authorized to access this route")),
           idle d)
    | None =>
        if bool_decide (User.role (user req) ∈ ["seller"; "admin"]) then
          (Normal (answer 404%nat "Resource not found"),
           {| db := d; txn := None; io := [];
              oplog := [OpFindProduct (params_id req)] |})
        else
          (Normal (answer 403%nat ("User role " +:+ User.role (user req)
                                 +:+ " is not authorized to access this route")),
           idle d)
    end.
Proof.
  simpl. unfold bind at 1. rewrite authorize_run.
  case_bool_decide as Hrole.
  - assert (Hr : User.role (user req) = "seller" \/ User.role (user req) = "admin").
    { apply elem_of_cons in Hrole as [?|Hrole]; [auto|].
      apply list_elem_of_singleton in Hrole. auto. }
    unfold bind, ret. rewrite isOwnerOrAdmin_run.
    destruct (products d !! params_id req) as [p|]; [|reflexivity].
    unfold mayManage.
    repeat case_bool_decide; simpl; try reflexivity; exfalso; intuition congruence.
  - destruct (products d !! params_id req) as [p|]; [|reflexivity].
    rewrite bool_decide_eq_false_2; [reflexivity|].
    intros [E | [E _]]; apply Hrole; rewrite E;
      [apply elem_of_cons; right|]; apply elem_of_cons; left; reflexivity.
Qed.









(** X5. Nobody else can change or remove a product: when the requester may
    not manage the product (or there is none under the id), neither
    [DELETE /:id] nor [PUT /:id] answers 200, and both leave the documents
    unchanged. *)
Theorem product_routes_refuse_strangers trim req u d :
  match products d !! params_id req with
  | Some p => ~ mayManage (user req) p
  | None => True
  end ->
  (exists code msg,
     replied (removeProduct req) d = Some (answerReply code msg)
     /\ code <> 200%nat /\ stored (removeProduct req) d = d)
  /\ (exists code msg,
        replied (putProduct trim req u) d = Some (answerReply code msg)
        /\ code <> 200%nat /\ stored (putProduct trim req u) d = d).
Proof.
  intros Hno. unfold replied, stored, run, removeProduct, putProduct.
  rewrite !product_gates.
  destruct (products d !! params_id req) as [p|].
  - rewrite (bool_decide_eq_false_2 _ Hno).
    case_bool_decide; simpl; split; do 2 eexists; (split; [reflexivity|]); done.
  - unfold updateProduct, deleteProduct.
    case_bool_decide; simpl; split; do 2 eexists; (split; [reflexivity|]); done.
Qed.

Lemma product_routes_refuse_strangers_witness :
  (exists code msg,
     replied (removeProduct (lookup_by tom "P1")) (shop 5) = Some (answerReply code msg)
     /\ code <> 200%nat /\ stored (removeProduct (lookup_by tom "P1")) (shop 5) = shop 5)
  /\ (exists code msg,
        replied (putProduct (fun s => s) (lookup_by tom "P1") priceCut) (shop 5)
        = Some (answerReply code msg)
        /\ code <> 200%nat
        /\ stored (putProduct (fun s => s) (lookup_by tom "P1") priceCut) (shop 5)
           = shop 5).
Proof.
  apply (product_routes_refuse_strangers (fun s => s) (lookup_by tom "P1") priceCut
           (shop 5)).
  vm_compute. intros [H | [_ H]]; discriminate.
Defined.



(** The order for two units that succeeded on the shop fails once the seller
    has removed the product. *)
Example order_after_removal :
  response (createOrder env0 (cart [CartItem.mk "P1" 2] (Some "cod")))
    (stored (removeProduct (lookup_by sam "P1")) (shop 5))
  = Normal {| statusCode := 400;
              json := JsonMessage "Product P1 not found or inactive" |}.
Proof. vm_compute. reflexivity. Qed.

Lemma updateProduct_run trim req u s :
  txn s = None ->
  updateProduct trim req u s
  = if ProductUpdate_valid trim u then
      match products (db s) !! params_id req with
      | Some p =>
          (Normal {| replyCode := 200;
                     replyJson := Data (params_id req, Product_applyUpdate trim u p) |},
           {| db := withProducts <[params_id req := Product_applyUpdate trim u p]> (db s);
              txn := None; io := io s; oplog := oplog s |})
      | None => (Normal (answerReply 404 "Product not found"), s)
      end
    else (Normal (answerReply 500 "Server error"), s).
Proof.
  intros Hs. unfold updateProduct, Product_findByIdAndUpdate. step.
  destruct (ProductUpdate_valid trim u); simpl; [|reflexivity].
  destruct (products (db s) !! params_id req) as [p|]; simpl.
  - rewrite Hs. reflexivity.
  - destruct s; simpl in *; subst; reflexivity.
Qed.

(** X7. An update never moves a product to another seller and never
    changes whether it is active (so it cannot bring a removed product
    back); it adds and removes no product and touches no order.  This holds
    for every requester and every update, accepted or not. *)
Theorem putProduct_keeps_owner_and_activity trim req u d :
  (forall id,
     Product.sellerId <$> products (stored (putProduct trim req u) d) !! id
     = Product.sellerId <$> products d !! id
     /\ Product.isActive <$> products (stored (putProduct trim req u) d) !! id
        = Product.isActive <$> products d !! id)
  /\ orders (stored (putProduct trim req u) d) = orders d.
Proof.
  unfold stored, run, putProduct. rewrite product_gates.
  destruct (products d !! params_id req) as [p|] eqn:Hp.
  - case_bool_decide.
    + rewrite updateProduct_run by reflexivity. simpl. rewrite Hp.
      destruct (ProductUpdate_valid trim u); simpl; [|auto].
      split; [|reflexivity]. intros id.
      destruct (decide (params_id req = id)) as [<-|Hne].
      * rewrite lookup_insert_eq, Hp. auto.
      * rewrite lookup_insert_ne by done. auto.
    + case_bool_decide; simpl; auto.
  - case_bool_decide; simpl; auto.
Qed.

(** A [Number] below zero does not pass a [min: 0] validator. *)
Lemma negative_not_atLeast x :
  lessThan x 0%float = true -> atLeast 0%float x = false.
Proof.
  unfold lessThan, atLeast. rewrite FloatAxioms.ltb_spec, FloatAxioms.leb_spec.
  change (FloatOps.Prim2SF 0%float) with (SpecFloat.S754_zero false).
  destruct (FloatOps.Prim2SF x) as [s|s| |s m e]; try destruct s; vm_compute;
    congruence.
Qed.

(** X8. Negative numbers never enter the catalogue through an update: a
    request that sets a negative [stock] or a negative [price] is not
    answered 200 and leaves the documents unchanged, whoever sends it. *)
Theorem putProduct_rejects_negative trim req u d :
  (exists n, set_stock u = Some n /\ n < 0)
  \/ (exists x, set_price u = Some x /\ lessThan x 0%float = true) ->
  (exists code msg,
     replied (putProduct trim req u) d = Some (answerReply code msg)
     /\ code <> 200%nat)
  /\ stored (putProduct trim req u) d = d.
Proof.
  intros Hneg.
  assert (Hinvalid : ProductUpdate_valid trim u = false).
  { unfold ProductUpdate_valid.
    destruct Hneg as [(n & -> & Hn) | (x & -> & Hx)].
    - apply andb_false_iff. right. apply Z.leb_gt, Hn.
    - apply andb_false_iff. left. apply andb_false_iff. right.
      apply negative_not_atLeast, Hx. }
  unfold replied, stored, run, putProduct. rewrite product_gates.
  destruct (products d !! params_id req) as [p|] eqn:Hp.
  - case_bool_decide.
    + rewrite updateProduct_run by reflexivity. rewrite Hinvalid. simpl.
      split; [|reflexivity]. do 2 eexists. split; [reflexivity|done].
    + case_bool_decide; simpl; (split; [|reflexivity]);
        do 2 eexists; (split; [reflexivity|done]).
  - case_bool_decide; simpl; (split; [|reflexivity]);
      do 2 eexists; (split; [reflexivity|done]).
Qed.

Lemma putProduct_rejects_negative_witness :
  (exists code msg,
     replied (putProduct (fun s => s) (lookup_by sam "P1") oversold) (shop 5)
     = Some (answerReply code msg)
     /\ code <> 200%nat)
  /\ stored (putProduct (fun s => s) (lookup_by sam "P1") oversold) (shop 5) = shop 5.
Proof.
  apply (putProduct_rejects_negative (fun s => s) (lookup_by sam "P1") oversold (shop 5)).
  left. exists (-1). split; [reflexivity|lia].
Defined.

(** The owner's valid update goes through, and the negative one is answered
    500. *)
Example putProduct_by_owner :
  replied (putProduct (fun s => s) (lookup_by sam "P1") priceCut) (shop 5)
  = Some {| replyCode := 200;
            replyJson := Data ("P1", Product.mk "Widget" 8%float 5 "seller1" true) |}
  /\ replied (putProduct (fun s => s) (lookup_by sam "P1") oversold) (shop 5)
     = Some (answerReply 500 "Server error").
Proof. vm_compute. auto. Qed.

(** ** Listing orders *)

Lemma insertNewest_perm o l : insertNewest o l ≡ₚ o :: l.
Proof.
  induction l as [|x l IH]; simpl; [done|].
  destruct (Order.createdAt x <=? Order.createdAt o); [done|].
  rewrite IH. apply Permutation_swap.
Qed.

Lemma sortNewestFirst_perm l : sortNewestFirst l ≡ₚ l.
Proof.
  induction l as [|x l IH]; simpl; [done|].
  rewrite insertNewest_perm. by rewrite IH.
Qed.

Lemma insertNewest_sorted o l : newestFirst l -> newestFirst (insertNewest o l).
Proof.
  induction l as [|x l IH]; simpl.
  - intros _. split; [constructor|done].
  - intros [Hx Hl].
    destruct (Order.createdAt x <=? Order.createdAt o) eqn:E; simpl.
    + apply Z.leb_le in E. split; [|done].
      constructor; [done|].
      apply Forall_forall. intros y Hy.
      pose proof (proj1 (Forall_forall _ _) Hx y Hy). simpl in *. lia.
    + apply Z.leb_gt in E. split; [|auto].
      rewrite insertNewest_perm. constructor; [lia|done].
Qed.

Lemma sortNewestFirst_sorted l : newestFirst (sortNewestFirst l).
Proof.
  induction l as [|x l IH]; simpl; [done|].
  by apply insertNewest_sorted.
Qed.

Lemma elem_of_matching matches d o :
  o ∈ matching matches d
  <-> (exists id, orders d !! id = Some o) /\ matches o = true.
Proof.
  unfold matching. rewrite sortNewestFirst_perm, list_elem_of_filter.
  rewrite list_elem_of_fmap. split.
  - intros (Hm & [id o'] & -> & Hin). apply elem_of_map_to_list in Hin. eauto.
  - intros ((id & Hid) & Hm). split; [done|].
    exists (id, o). split; [done|]. by apply elem_of_map_to_list.
Qed.

Lemma getMyOrders_run req d :
  run (getMyOrders req) d
  = (Normal {| replyCode := 200;
               replyJson :=
                 Data (matching
                         (fun o => bool_decide (Order.userId o = User._id (user req)))
                         d) |},
     idle d).
Proof. unfold run, getMyOrders, Order_find. step. by rewrite drop_0. Qed.

(** X9. [getMyOrders] answers 200 with exactly the orders of the requester:
    an order is in the list if and only if it is in the ledger and its
    [userId] is the requester's id, so no other user's order is disclosed and
    none of the requester's is missing; the list runs from the newest to the
    oldest, and nothing is written. *)
Theorem getMyOrders_lists_own_orders req d :
  exists l,
    replied (getMyOrders req) d = Some {| replyCode := 200; replyJson := Data l |}
    /\ (forall o, o ∈ l <-> (exists id, orders d !! id = Some o)
                            /\ Order.userId o = User._id (user req))
    /\ newestFirst l
    /\ stored (getMyOrders req) d = d.
Proof.
  unfold replied, stored. rewrite getMyOrders_run. simpl.
  eexists. split; [reflexivity|].
  split; [|split; [apply sortNewestFirst_sorted | reflexivity]].
  intros o. rewrite elem_of_matching, bool_decide_eq_true. reflexivity.
Qed.

(** X10. An order placed through [createOrder] shows up in the list of the
    user who placed it, and in the list of no user with another id. *)
Theorem placed_order_is_listed env req d :
  statusOf (response (createOrder env req) d) = Some 201%nat ->
  exists o,
    Order._id o = freshId env
    /\ forall viewer l,
         replied (getMyOrders viewer) (after (createOrder env req) d)
         = Some {| replyCode := 200; replyJson := Data l |} ->
         (User._id (user viewer) = User._id (user req) -> o ∈ l)
         /\ (User._id (user viewer) <> User._id (user req) -> o ∉ l).
Proof.
  intros Hok.
  destruct (createOrder_success env req d Hok)
    as (items & ps' & total & processed & _ & _ & _ & _ & _ & Hdb & _).
  exists (placedOrder env req total processed). split; [reflexivity|].
  intros viewer l Hl. unfold replied in Hl. rewrite getMyOrders_run in Hl.
  simpl in Hl. injection Hl as <-. rewrite Hdb. split.
  - intros Hsame. apply elem_of_matching. split.
    + exists (freshId env). apply lookup_insert_eq.
    + apply bool_decide_eq_true_2. simpl. by rewrite Hsame.
  - intros Hother Hel. apply elem_of_matching in Hel as [_ Hu].
    apply bool_decide_eq_true in Hu. simpl in Hu. congruence.
Qed.

Lemma placed_order_is_listed_witness :
  exists o,
    Order._id o = freshId env0
    /\ forall viewer l,
         replied (getMyOrders viewer)
           (after (createOrder env0 (cart [CartItem.mk "P1" 2] (Some "cod"))) (shop 5))
         = Some {| replyCode := 200; replyJson := Data l |} ->
         (User._id (user viewer)
          = User._id (user (cart [CartItem.mk "P1" 2] (Some "cod"))) -> o ∈ l)
         /\ (User._id (user viewer)
             <> User._id (user (cart [CartItem.mk "P1" 2] (Some "cod"))) -> o ∉ l).
Proof.
  apply (placed_order_is_listed env0 (cart [CartItem.mk "P1" 2] (Some "cod")) (shop 5)).
  vm_compute. reflexivity.
Defined.


Lemma getAllOrders_run q d :
  run (getAllOrders q) d
  = (Normal
       {| replyCode := 200;
          replyJson :=
            Data {| page_orders :=
                      take (Pos.to_nat (default 10%positive (query_limit q)))
                        (drop ((Pos.to_nat (default 1%positive (query_page q)) - 1)
                               * Pos.to_nat (default 10%positive (query_limit q)))
                           (matching (queryMatches q) d));
                    page_page := Z.pos (default 1%positive (query_page q));
                    page_pages :=
                      ceilDiv (Z.of_nat (length (matching (queryMatches q) d)))
                        (Z.pos (default 10%positive (query_limit q)));
                    page_total := Z.of_nat (length (matching (queryMatches q) d)) |} |},
     idle d).
Proof.
  unfold run, getAllOrders, Order_find, Order_countDocuments. step.
  rewrite Z2Nat.inj_mul, Z2Nat.inj_sub by lia. rewrite !Z2Nat.inj_pos.
  reflexivity.
Qed.






(** Five orders, two to a page: three pages, the last one with one order. *)
Example getAllOrders_three_pages :
  length <$> (ordersOnPage twoPerPage busyLedger <$> seq 1 4) = [2; 2; 1; 0]%nat
  /\ pagesOf twoPerPage busyLedger = 3%nat.
Proof. vm_compute. auto. Qed.

(** ** Who receives the events *)

Lemma user_room_joined u id : "user-" +:+ id ∈ joinedRooms u <-> User._id u = id.
Proof.
  unfold joinedRooms. rewrite elem_of_cons. split.
  - intros [E|Hin]; [by simplify_eq/=|].
    repeat case_bool_decide;
      repeat (apply elem_of_cons in Hin as [E|Hin]; [by simplify_eq/=|]);
      inversion Hin.
  - intros ->. by left.
Qed.

Lemma admin_room_joined u : "admin" ∈ joinedRooms u <-> User.role u = "admin".
Proof.
  unfold joinedRooms. rewrite elem_of_cons. split.
  - intros [E|Hin]; [by simplify_eq/=|].
    repeat case_bool_decide; [done| |];
      repeat (apply elem_of_cons in Hin as [E|Hin]; [by simplify_eq/=|]);
      inversion Hin.
  - intros E. right. rewrite bool_decide_eq_true_2 by done. by left.
Qed.

Lemma seller_room_joined u id :
  "seller-" +:+ id ∈ joinedRooms u <-> User.role u = "seller" /\ User._id u = id.
Proof.
  unfold joinedRooms. rewrite elem_of_cons. split.
  - intros [E|Hin]; [by simplify_eq/=|].
    repeat case_bool_decide;
      repeat (apply elem_of_cons in Hin as [E|Hin]; [by simplify_eq/=|]);
      inversion Hin.
  - intros [Hrole ->]. right.
    rewrite bool_decide_eq_false_2 by (rewrite Hrole; discriminate).
    rewrite bool_decide_eq_true_2 by done. by left.
Qed.

(** X13. When a status update succeeds, it emits the event
    [order-status-update], carrying the order's id and its new status, and
    exactly the sockets of the order's user receive it; when the requester is
    an admin it emits after it the event [admin-order-update], which exactly
    the sockets of admins receive; these are the only events emitted. *)
Theorem status_events_reach_owner_and_admins req d :
  statusOf (response (updateOrderStatus req) d) = Some 200%nat ->
  exists o s e,
    orders d !! params_id req = Some o
    /\ body_status req = Some s
    /\ event e = "order-status-update"
    /\ payload e = OrderStatusUpdate (Order._id o) s
    /\ (forall u, receives u e <-> User._id u = Order.userId o)
    /\ ((User.role (user req) <> "admin"
         /\ emitted (updateOrderStatus req) d = [e])
        \/ (User.role (user req) = "admin"
            /\ exists e',
                 emitted (updateOrderStatus req) d = [e; e']
                 /\ event e' = "admin-order-update"
                 /\ payload e' = AdminOrderUpdate (Order._id o) s
                                   (User.name (user req))
                 /\ forall u, receives u e' <-> User.role u = "admin")).
Proof.
  unfold response, emitted. intros Hok.
  destruct (body_status req) as [s|] eqn:Hs.
  2: { exfalso. revert Hok. unfold handle, updateOrderStatus. rewrite Hs. step.
       discriminate. }
  rewrite (updateOrderStatus_run req d s Hs) in *.
  case_bool_decide; [|simpl in Hok; discriminate].
  destruct (orders d !! params_id req) as [o|]; [|simpl in Hok; discriminate].
  exists o, s, {| room := "user-" +:+ Order.userId o;
                  event := "order-status-update";
                  payload := OrderStatusUpdate (Order._id o) s |}.
  simpl.
  split; [done|]. split; [done|]. split; [reflexivity|]. split; [reflexivity|].
  split.
  { intros u. unfold receives. simpl. apply user_room_joined. }
  case_bool_decide as Hadmin.
  - right. split; [done|].
    exists {| room := "admin"; event := "admin-order-update";
              payload := AdminOrderUpdate (Order._id o) s (User.name (user req)) |}.
    split; [reflexivity|]. split; [reflexivity|]. split; [reflexivity|].
    intros u. unfold receives. simpl. apply admin_room_joined.
  - left. split; [done|reflexivity].
Qed.

Lemma status_events_reach_owner_and_admins_witness :
  exists o s e,
    orders (ledger "pending") !! params_id (statusRequest root "O1" "processing")
    = Some o
    /\ body_status (statusRequest root "O1" "processing") = Some s
    /\ event e = "order-status-update"
    /\ payload e = OrderStatusUpdate (Order._id o) s
    /\ (forall u, receives u e <-> User._id u = Order.userId o)
    /\ ((User.role (user (statusRequest root "O1" "processing")) <> "admin"
         /\ emitted (updateOrderStatus (statusRequest root "O1" "processing"))
              (ledger "pending") = [e])
        \/ (User.role (user (statusRequest root "O1" "processing")) = "admin"
            /\ exists e',
                 emitted (updateOrderStatus (statusRequest root "O1" "processing"))
                   (ledger "pending") = [e; e']
                 /\ event e' = "admin-order-update"
                 /\ payload e' = AdminOrderUpdate (Order._id o) s
                                   (User.name
                                      (user (statusRequest root "O1" "processing")))
                 /\ forall u, receives u e' <-> User.role u = "admin")).
Proof.
  apply (status_events_reach_owner_and_admins
           (statusRequest root "O1" "processing") (ledger "pending")).
  vm_compute. reflexivity.
Defined.

(** X14. The [new-order] event of a successful [createOrder] is received
    only by a seller socket whose user id is the text ["undefined"]: no seller
    with an actual id, no customer and no admin receives it, whoever owns the
    products of the cart. *)
Theorem new_order_event_reaches_no_seller env req d :
  statusOf (response (createOrder env req) d) = Some 201%nat ->
  exists e,
    emitted (createOrder env req) d = [e]
    /\ event e = "new-order"
    /\ forall u, receives u e
                 <-> User.role u = "seller" /\ User._id u = "undefined".
Proof.
  intros Hok.
  destruct (createOrder_success env req d Hok)
    as (items & ps' & total & processed & _ & _ & _ & _ & _ & _ & ->).
  eexists. split; [reflexivity|]. split; [reflexivity|].
  intros u. unfold receives. simpl.
  apply (seller_room_joined u "undefined").
Qed.

Lemma new_order_event_reaches_no_seller_witness :
  exists e,
    emitted (createOrder env0 (cart [CartItem.mk "P1" 2] (Some "cod"))) (shop 5) = [e]
    /\ event e = "new-order"
    /\ forall u, receives u e
                 <-> User.role u = "seller" /\ User._id u = "undefined".
Proof.
  apply (new_order_event_reaches_no_seller env0
           (cart [CartItem.mk "P1" 2] (Some "cod")) (shop 5)).
  vm_compute. reflexivity.
Defined.

(** The owner of [P1] is connected as a seller and does not receive the
    event of an order for [P1]. *)
Example owner_misses_new_order :
  joinedRooms sam = ["user-seller1"; "seller-seller1"]
  /\ room <$> emitted (createOrder env0 (cart [CartItem.mk "P1" 2] (Some "cod")))
                (shop 5)
     = ["seller-undefined"].
Proof. vm_compute. auto. Qed.

(** ** Stock accounting *)

Lemma Reserved_withdraws ps total processed items ps' total' processed' :
  Reserved ps total processed items ps' total' processed' ->
  forall id, ps' !! id = withdrawn (demand id items) <$> ps !! id.
Proof.
  induction 1 as [|ps total processed item rest p ps' total' processed'
                    Hp Hact Hq Hval line HR IH]; intros id.
  - simpl. destruct (ps !! id) as [[]|]; simpl; [|done].
    unfold withdrawn. simpl. do 2 f_equal. lia.
  - rewrite IH. simpl. case_bool_decide as Hid.
    + rewrite Hid in *. rewrite lookup_insert_eq, Hp. simpl.
      unfold withdrawn, Product.decreaseStock. simpl. do 2 f_equal. lia.
    + rewrite lookup_insert_ne by done. reflexivity.
Qed.

(** X15. A successful order takes from the stock exactly what the cart asks
    for, the stocks being safe integers (so that the subtraction of
    JavaScript Numbers is the subtraction of whole numbers): every product
    keeps its name, price, seller and active flag, and its stock goes down by
    the sum of the quantities of the cart lines that name it (nothing for a
    product the cart does not name); no product is added or removed. *)
Theorem createOrder_stock_accounting env req d :
  safeStocks (products d) ->
  statusOf (response (createOrder env req) d) = Some 201%nat ->
  exists items,
    body_items req = Some items
    /\ forall id,
         products (after (createOrder env req) d) !! id
         = withdrawn (demand id items) <$> products d !! id.
Proof.
  intros _ Hok.
  destruct (createOrder_success env req d Hok)
    as (items & ps' & total & processed & Hitems & _ & HR & _ & _ & -> & _).
  exists items. split; [done|]. simpl.
  apply (Reserved_withdraws _ _ _ _ _ _ _ HR).
Qed.

Lemma createOrder_stock_accounting_witness :
  exists items,
    body_items (cart [CartItem.mk "P1" 2; CartItem.mk "P2" 1; CartItem.mk "P1" 3]
                  (Some "card")) = Some items
    /\ forall id,
         products (after (createOrder env0
                            (cart [CartItem.mk "P1" 2; CartItem.mk "P2" 1;
                                   CartItem.mk "P1" 3] (Some "card")))
                     secondShop) !! id
         = withdrawn (demand id items) <$> products secondShop !! id.
Proof.
  apply (createOrder_stock_accounting env0
           (cart [CartItem.mk "P1" 2; CartItem.mk "P2" 1; CartItem.mk "P1" 3]
              (Some "card")) secondShop).
  - apply (bool_decide_unpack _). vm_compute. reflexivity.
  - vm_compute. reflexivity.
Defined.

(** ** Carts that are accepted *)









(** ** Invariants of the whole API *)

Lemma deleteProduct_effect trim req s :
  txn s = None -> Effect trim (db s) (db (deleteProduct req s).2).
Proof.
  intros Hs. unfold deleteProduct, Product_findById, Product_save. step.
  rewrite Hs. simpl.
  destruct (products (db s) !! params_id req) as [p|] eqn:Hp; simpl;
    [|constructor].
  destruct (Product.valid (Product_deactivate p)) eqn:Hval; simpl;
    [|constructor].
  by apply Effect_remove.
Qed.

Lemma serve_effect trim call d : Effect trim d (serve trim call d).
Proof.
  destruct call as [env req|req|req|req|req q|req|req u|req]; simpl; unfold stored.
  - unfold run, postOrder. simpl. unfold bind. rewrite authorize_run.
    case_bool_decide; [|constructor].
    destruct (createOrder_run env req d) as (c & s' & Hrun & _ & Hcases).
    unfold handle in Hrun. rewrite Hrun. simpl.
    destruct Hcases as [(r & _ & _ & -> & _)
                       | (items & ps' & total & processed & Hsucc)];
      [constructor|].
    destruct Hsucc as (_ & _ & HR & _ & Hfresh & _ & -> & _).
    by eapply Effect_order.
  - unfold run, putOrderStatus. simpl. unfold bind. rewrite authorize_run.
    case_bool_decide; [|constructor].
    destruct (body_status req) as [s|] eqn:Hs.
    + pose proof (updateOrderStatus_run req d s Hs) as Hrun.
      unfold handle in Hrun. rewrite Hrun.
      case_bool_decide; [|constructor].
      destruct (orders d !! params_id req) as [o|] eqn:Ho; [|constructor].
      simpl. by apply Effect_status.
    + unfold updateOrderStatus. rewrite Hs. step. constructor.
  - unfold run, getOrderById, Order_findById. step.
    destruct (orders d !! params_id req) as [o|]; simpl; [|constructor].
    destruct (_ && _); constructor.
  - rewrite getMyOrders_run. constructor.
  - unfold run, getOrders. simpl. unfold bind. rewrite authorize_run.
    case_bool_decide; [|constructor].
    pose proof (getAllOrders_run q d) as Hrun. unfold run in Hrun.
    rewrite Hrun. constructor.
  - unfold run, getProductById, Product_findById. step.
    destruct (products d !! params_id req) as [p|]; simpl; [|constructor].
    destruct (Product.isActive p); constructor.
  - unfold run, putProduct. rewrite product_gates.
    destruct (products d !! params_id req) as [p|] eqn:Hp.
    + case_bool_decide.
      * rewrite updateProduct_run by reflexivity. simpl. rewrite Hp.
        destruct (ProductUpdate_valid trim u) eqn:Hval; [|constructor].
        by apply Effect_update.
      * case_bool_decide; constructor.
    + case_bool_decide; constructor.
  - unfold run, removeProduct. rewrite product_gates.
    destruct (products d !! params_id req) as [p|] eqn:Hp.
    + case_bool_decide.
      * apply (deleteProduct_effect trim req
                 {| db := d; txn := None; io := [];
                    oplog := [OpFindProduct (params_id req)] |}).
        reflexivity.
      * case_bool_decide; constructor.
    + case_bool_decide; constructor.
Qed.

Lemma Effect_stockNonNegative trim d d' :
  Effect trim d d' ->
  stockNonNegative (products d) -> stockNonNegative (products d').
Proof.
  intros [|items ps' total processed id o HR _|id o s _|id p u Hp Hval|id p Hp Hval] Hnn;
    simpl; try done.
  - eapply Reserved_stockNonNegative; eauto.
  - intros id' p'. destruct (decide (id = id')) as [<-|Hne].
    + rewrite lookup_insert_eq. intros [= <-]. simpl.
      unfold ProductUpdate_valid in Hval.
      destruct (set_stock u) as [n|]; simpl.
      * apply andb_true_iff in Hval as [_ Hn]. by apply Z.leb_le.
      * by apply (Hnn id p).
    + rewrite lookup_insert_ne by done. apply Hnn.
  - intros id' p'. destruct (decide (id = id')) as [<-|Hne].
    + rewrite lookup_insert_eq. intros [= <-]. simpl. by apply (Hnn id p).
    + rewrite lookup_insert_ne by done. apply Hnn.
Qed.

(** X17. No sequence of requests to the modelled routes (placing orders,
    status updates, reads, product updates and removals, in any order and by
    any users) makes a stock negative, provided no stock is negative at the
    start. *)
Theorem api_keeps_stock_non_negative trim calls d :
  stockNonNegative (products d) ->
  stockNonNegative (products (serveAll trim calls d)).
Proof.
  revert d. induction calls as [|call calls IH]; intros d Hnn; simpl; [done|].
  apply IH. eapply Effect_stockNonNegative; [apply serve_effect | done].
Qed.

Lemma api_keeps_stock_non_negative_witness :
  stockNonNegative (products (serveAll (fun s => s) busyDay (shop 5))).
Proof.
  apply (api_keeps_stock_non_negative (fun s => s) busyDay (shop 5)).
  unfold stockNonNegative. apply (bool_decide_unpack _). vm_compute. reflexivity.
Defined.

Lemma sameOrderButStatus_trans o1 o2 o3 :
  sameOrderButStatus o1 o2 -> sameOrderButStatus o2 o3 -> sameOrderButStatus o1 o3.
Proof.
  unfold sameOrderButStatus. intros <- <-. destruct o3. reflexivity.
Qed.

Lemma Effect_keeps_orders trim d d' :
  Effect trim d d' ->
  forall id o, orders d !! id = Some o ->
    exists o', orders d' !! id = Some o' /\ sameOrderButStatus o o'.
Proof.
  assert (Hrefl : forall o, sameOrderButStatus o o) by (by intros []).
  intros [|items ps' total processed id0 o0 _ Hfresh|id0 o0 s Ho0|id0 p u _ _|id0 p _ _]
         id o Ho; simpl; eauto.
  - exists o. split; [|done]. rewrite lookup_insert_ne; [done|]. congruence.
  - destruct (decide (id0 = id)) as [<-|Hne].
    + rewrite lookup_insert_eq. eexists. split; [reflexivity|].
      rewrite Ho0 in Ho. injection Ho as <-. by destruct o0.
    + rewrite lookup_insert_ne by done. eauto.
Qed.

(** X18. The ledger only grows, and a stored order only ever changes its
    status: after any sequence of requests to the modelled routes, every
    order that was in the ledger is still there under the same id, with the
    same user, lines, prices, total, address, payment fields and timestamps. *)
Theorem api_keeps_orders trim calls d id o :
  orders d !! id = Some o ->
  exists o',
    orders (serveAll trim calls d) !! id = Some o' /\ sameOrderButStatus o o'.
Proof.
  revert d o. induction calls as [|call calls IH]; intros d o Ho; simpl.
  - exists o. split; [done|]. by destruct o.
  - destruct (Effect_keeps_orders trim d _ (serve_effect trim call d) id o Ho)
      as (o1 & Ho1 & Hsame1).
    destruct (IH _ o1 Ho1) as (o2 & Ho2 & Hsame2).
    exists o2. split; [done|]. by eapply sameOrderButStatus_trans.
Qed.

Lemma api_keeps_orders_witness :
  exists o',
    orders (serveAll (fun s => s) busyDay (ledger "pending")) !! "O1" = Some o'
    /\ sameOrderButStatus (order1 "pending") o'.
Proof.
  apply (api_keeps_orders (fun s => s) busyDay (ledger "pending") "O1"
           (order1 "pending")).
  vm_compute. reflexivity.
Defined.

Lemma Effect_keeps_products trim d d' :
  Effect trim d d' ->
  forall id p, products d !! id = Some p ->
    exists p', products d' !! id = Some p' /\ sameProductLater p p'.
Proof.
  assert (Hrefl : forall p, sameProductLater p p) by (by intros []).
  intros [|items ps' total processed id0 o0 HR _|id0 o0 s _|id0 p0 u Hp0 _|id0 p0 Hp0 _]
         id p Hp; simpl; eauto.
  - rewrite (Reserved_withdraws _ _ _ _ _ _ _ HR id), Hp. simpl.
    eexists. split; [reflexivity|]. by split.
  - destruct (decide (id0 = id)) as [<-|Hne].
    + rewrite lookup_insert_eq. eexists. split; [reflexivity|].
      rewrite Hp0 in Hp. injection Hp as <-. by split.
    + rewrite lookup_insert_ne by done. eauto.
  - destruct (decide (id0 = id)) as [<-|Hne].
    + rewrite lookup_insert_eq. eexists. split; [reflexivity|].
      rewrite Hp0 in Hp. injection Hp as <-. by split.
    + rewrite lookup_insert_ne by done. eauto.
Qed.

(** X19. No request to the modelled routes deletes a product document,
    hands a product to another seller, or makes a removed product active
    again: after any sequence of such requests every product is still in the
    collection under its id with the same [sellerId], and inactive if it was
    inactive. *)
Theorem api_keeps_products trim calls d id p :
  products d !! id = Some p ->
  exists p',
    products (serveAll trim calls d) !! id = Some p' /\ sameProductLater p p'.
Proof.
  revert d p. induction calls as [|call calls IH]; intros d p Hp; simpl.
  - exists p. by repeat split.
  - destruct (Effect_keeps_products trim d _ (serve_effect trim call d) id p Hp)
      as (p1 & Hp1 & Hs1 & Ha1).
    destruct (IH _ p1 Hp1) as (p2 & Hp2 & Hs2 & Ha2).
    exists p2. split; [done|]. split; [congruence|auto].
Qed.

Lemma api_keeps_products_witness :
  exists p',
    products (serveAll (fun s => s) busyDay (shop 5)) !! "P1" = Some p'
    /\ sameProductLater (P1 5) p'.
Proof.
  apply (api_keeps_products (fun s => s) busyDay (shop 5) "P1" (P1 5)).
  vm_compute. reflexivity.
Defined.

(** The documents after [busyDay] on the shop: two units sold, the price
    cut, the product removed; the second order was refused. *)
Example busyDay_on_the_shop :
  products (serveAll (fun s => s) busyDay (shop 5)) !! "P1"
  = Some (Product.mk "Widget" 8%float 3 "seller1" false)
  /\ (Order.status <$> orders (serveAll (fun s => s) busyDay (shop 5)) !! "O1")
     = Some "shipped"
  /\ orders (serveAll (fun s => s) busyDay (shop 5)) !! "O2" = None.
Proof. vm_compute. auto. Qed.

(** ** The amount of an order *)





(** A price cut after the order: the order keeps the price and the amount
    it was placed with. *)
Example order_keeps_price_after_price_cut :
  Product.price
    <$> products (serveAll (fun s => s) [PutProduct (lookup_by sam "P1") priceCut]
                    (after (createOrder env0 (cart [CartItem.mk "P1" 2] (Some "cod")))
                       (shop 5))) !! "P1"
  = Some 8%float
  /\ (fun o => (OrderItem.price <$> Order.items o, Order.totalAmount o))
       <$> orders (serveAll (fun s => s) [PutProduct (lookup_by sam "P1") priceCut]
                     (after (createOrder env0 (cart [CartItem.mk "P1" 2] (Some "cod")))
                        (shop 5))) !! "O1"
     = Some ([10%float], 20%float).
Proof. vm_compute. auto. Qed.

